(** * OMAP2/3 PRM module functions (arch/arm/mach-omap2/prm2xxx_3xxx.c)

    A shallow embedding of the register accessors, the hardreset controller,
    the VP/ABB transaction-done helpers and the Latona multi-base router,
    together with the properties stated about them. *)

From Stdlib Require Import ZArith Lia List Bool.
From stdpp Require Import base list.
Import ListNotations.

Local Open Scope Z_scope.

(** ** Machine integers

    C integers are carried as [Z]; every conversion the source performs is
    written out. *)

Definition u32 (x : Z) : Z := Z.land x (Z.ones 32).
Definition u16 (x : Z) : Z := Z.land x (Z.ones 16).

(** Conversion of a 16-bit pattern to [s16] (two's complement). *)
Definition s16 (x : Z) : Z :=
  let y := u16 x in if y <? 2 ^ 15 then y else y - 2 ^ 16.

(** Conversion of a 32-bit pattern to [int]. *)
Definition s32 (x : Z) : Z :=
  let y := u32 x in if y <? 2 ^ 31 then y else y - 2 ^ 32.

(** [~x] on a [u32]. *)
Definition not32 (x : Z) : Z := u32 (Z.lnot x).

(** Modelled from the spec: [EBUSY] (asm-generic/errno-base.h) is not part
    of this file; Timeout is [-EBUSY]. *)
Definition EBUSY : Z := 16.

(** Modelled from the spec: [EEXIST] (asm-generic/errno-base.h) is not part
    of this file; AlreadyDeasserted is [-EEXIST]. *)
Definition EEXIST : Z := 17.

(** Modelled from the spec: [EINVAL] (asm-generic/errno-base.h) is not part
    of this file; InvalidChip is [-EINVAL]. *)
Definition EINVAL : Z := 22.

(** ** The register bus

    Modelled from the spec: the registers live in the hardware, and the
    primitives that reach them ([__raw_readl], [__raw_writel], [udelay]) are
    not part of this file.  The bus state is the content of every register
    together with the log of the accesses made so far (oldest first).  A read
    returns the 32 bits of the register and changes nothing; what a write
    does depends on the kind of the register; the hardware acts on its own
    only while the code waits in [udelay]. *)

Inductive event : Type :=
| Rd (addr : Z)
| Wr (addr : Z) (val : Z).

Definition regfile : Type := Z -> Z.

Record bus : Type := Bus { regs : regfile; trace : list event }.

(** The value a 32-bit read of [a] returns. *)
Definition peek (r : regfile) (a : Z) : Z := u32 (r a).

Definition poke (r : regfile) (a v : Z) : regfile :=
  fun b => if b =? a then v else r b.

(** How a register reacts to a write: a storage register keeps the value
    written; in a write-one-to-clear register every 1 written clears the
    corresponding bit and every 0 leaves it alone. *)
Inductive reg_kind : Type := Storage | WriteOneToClear.

(** The hardware seen from the bus: the kind of each register, and the
    status bits the hardware latches in the write-one-to-clear registers
    during one [udelay(1)], given the current register contents. *)
Record hardware : Type := Hardware {
  kind_of : Z -> reg_kind;
  latch : regfile -> Z -> Z
}.

Definition bus_write (hw : hardware) (a v : Z) (r : regfile) : regfile :=
  match kind_of hw a with
  | Storage => poke r a v
  | WriteOneToClear => poke r a (Z.land (peek r a) (Z.lnot v))
  end.

Definition bus_delay (hw : hardware) (r : regfile) : regfile :=
  fun a =>
    match kind_of hw a with
    | Storage => r a
    | WriteOneToClear => Z.lor (r a) (latch hw r a)
    end.

(** The writes of a log, in order. *)
Fixpoint writes (t : list event) : list event :=
  match t with
  | [] => []
  | Rd _ :: t' => writes t'
  | Wr a v :: t' => Wr a v :: writes t'
  end.

(** ** Outcomes

    A call either returns a value and a bus state, runs into behaviour the C
    language leaves undefined (a shift count out of range, [__ffs] of zero,
    an array index out of bounds), or stops in [BUG_ON]. *)

Inductive outcome (A : Type) : Type :=
| Ret (a : A) (s : bus)
| Undefined
| Bug.
Arguments Ret {A} a s.
Arguments Undefined {A}.
Arguments Bug {A}.

Definition io (A : Type) : Type := bus -> outcome A.

#[global] Instance io_ret : MRet io := fun A a s => Ret a s.
#[global] Instance io_bind : MBind io := fun A B f m s =>
  match m s with
  | Ret a s' => f a s'
  | Undefined => Undefined
  | Bug => Bug
  end.

Definition undefined {A : Type} : io A := fun _ => Undefined.
Definition BUG {A : Type} : io A := fun _ => Bug.

(** [x << n] on [int], converted to [u32]; the shift count must be smaller
    than the width of [int]. *)
Definition shl32 (x n : Z) : io Z :=
  if (0 <=? n) && (n <? 32) then mret (u32 (Z.shiftl x n)) else undefined.

(** The index of the lowest set bit of a positive number. *)
Fixpoint lowest_set_bit (p : positive) : Z :=
  match p with
  | xO q => Z.succ (lowest_set_bit q)
  | _ => 0
  end.

(** Modelled from the spec: [__ffs] (asm/bitops.h) is not part of this file.
    It is the index of the lowest set bit of a word; for a zero word the
    result is undefined. *)
Definition __ffs (x : Z) : io Z :=
  match x with
  | Zpos p => mret (lowest_set_bit p)
  | _ => undefined
  end.

(** ** The platform

    Everything the file takes from its headers and from platform
    initialisation, as parameters: the mapped bases, the CPU identification
    predicates, the register offsets, the poll budget and the status masks.

    The arguments of a function are taken to lie in the range of their C
    types; where the source passes a value on at another type ([s16 idx] to
    [u16 idx]) the conversion is written out. *)

Record platform : Type := Platform {
  prm_base : Z;
  cm_base : Z;
  cm2_base : Z;
  cpu_is_omap24xx : bool;
  cpu_is_omap34xx : bool;
  OMAP2_RM_RSTCTRL : Z;
  OMAP2_RM_RSTST : Z;
  MAX_MODULE_HARDRESET_WAIT : Z;
  OCP_MOD : Z;
  OMAP3430_GR_MOD : Z;
  OMAP3_PRM_IRQSTATUS_MPU_OFFSET : Z;
  OMAP3430_VP1_TRANXDONE_ST_MASK : Z;
  OMAP3430_VP2_TRANXDONE_ST_MASK : Z;
  OMAP3630_ABB_LDO_TRANXDONE_ST_MASK : Z
}.

Section PRM.

Variable cfg : platform.
Variable hw : hardware.

(** Modelled from the spec: [__raw_readl] (asm/io.h) is not part of this
    file; it is the raw 32-bit read of the register at an I/O address. *)
Definition __raw_readl (a : Z) : io Z :=
  fun s => Ret (peek (regs s) a) (Bus (regs s) (trace s ++ [Rd a])).

(** Modelled from the spec: [__raw_writel] (asm/io.h) is not part of this
    file; it is the raw 32-bit write to the register at an I/O address. *)
Definition __raw_writel (v a : Z) : io unit :=
  fun s => Ret tt (Bus (bus_write hw a v (regs s)) (trace s ++ [Wr a v])).

(** Modelled from the spec: [udelay] (linux/delay.h) is not part of this
    file; [udelay(1)] busy-waits one microsecond, during which the hardware
    goes on. *)
Definition udelay : io unit :=
  fun s => Ret tt (Bus (bus_delay hw (regs s)) (trace s)).

Definition omap2_prm_read_mod_reg (module idx : Z) : io Z :=
  __raw_readl (prm_base cfg + module + idx).

Definition omap2_prm_write_mod_reg (val module idx : Z) : io unit :=
  __raw_writel val (prm_base cfg + module + idx).

(** Read-modify-write a register in a PRM module. *)
Definition omap2_prm_rmw_mod_reg_bits (mask bits module idx : Z) : io Z :=
  v ← omap2_prm_read_mod_reg module (u16 idx);
  let v := Z.land v (not32 mask) in
  let v := Z.lor v bits in
  omap2_prm_write_mod_reg v module (u16 idx);;
  mret v.

(** Read a PRM register, AND it, and shift the result down to bit 0. *)
Definition omap2_prm_read_mod_bits_shift (domain idx mask : Z) : io Z :=
  v ← omap2_prm_read_mod_reg domain (u16 idx);
  let v := Z.land v mask in
  n ← __ffs mask;
  mret (Z.shiftr v n).

Definition omap2_prm_set_mod_reg_bits (bits module idx : Z) : io Z :=
  omap2_prm_rmw_mod_reg_bits bits bits module idx.

Definition omap2_prm_clear_mod_reg_bits (bits module idx : Z) : io Z :=
  omap2_prm_rmw_mod_reg_bits bits 0 module idx.

(** *** Hardreset controller *)

(** Modelled from the spec: the loop of [omap_test_timeout], with [budget]
    tests left and [index] tests failed so far. *)
Fixpoint test_timeout_loop (cond : io Z) (budget : nat) (index : Z) : io Z :=
  match budget with
  | O => mret index
  | S budget' =>
      c ← cond;
      if c =? 0 then udelay;; test_timeout_loop cond budget' (index + 1)
      else mret index
  end.

(** Modelled from the spec: [omap_test_timeout] (plat/common.h) is a macro
    that is not part of this file.  It polls [cond] at most [timeout] times,
    waits [udelay(1)] after every test that fails, stops at the first test
    that succeeds, and leaves in [index] the number of tests that failed. *)
Definition omap_test_timeout (cond : io Z) (timeout : Z) : io Z :=
  test_timeout_loop cond (Z.to_nat timeout) 0.

Definition omap2_prm_is_hardreset_asserted (prm_mod shift : Z) : io Z :=
  if negb (cpu_is_omap24xx cfg || cpu_is_omap34xx cfg) then mret (- EINVAL)
  else
    mask ← shl32 1 shift;
    v ← omap2_prm_read_mod_bits_shift prm_mod (OMAP2_RM_RSTCTRL cfg) mask;
    mret (s32 v).

Definition omap2_prm_assert_hardreset (prm_mod shift : Z) : io Z :=
  if negb (cpu_is_omap24xx cfg || cpu_is_omap34xx cfg) then mret (- EINVAL)
  else
    mask ← shl32 1 shift;
    omap2_prm_rmw_mod_reg_bits mask mask prm_mod (OMAP2_RM_RSTCTRL cfg);;
    mret 0.

Definition omap2_prm_deassert_hardreset (prm_mod rst_shift st_shift : Z)
  : io Z :=
  if negb (cpu_is_omap24xx cfg || cpu_is_omap34xx cfg) then mret (- EINVAL)
  else
    rst ← shl32 1 rst_shift;
    st ← shl32 1 st_shift;
    (* Check the current status to avoid de-asserting the line twice *)
    v ← omap2_prm_read_mod_bits_shift prm_mod (OMAP2_RM_RSTCTRL cfg) rst;
    if v =? 0 then mret (- EEXIST)
    else
      (* Clear the reset status by writing 1 to the status bit *)
      omap2_prm_rmw_mod_reg_bits 0xffffffff st prm_mod (OMAP2_RM_RSTST cfg);;
      (* de-assert the reset control line *)
      omap2_prm_rmw_mod_reg_bits rst 0 prm_mod (OMAP2_RM_RSTCTRL cfg);;
      (* wait the status to be set *)
      c ← omap_test_timeout
            (omap2_prm_read_mod_bits_shift prm_mod (OMAP2_RM_RSTST cfg) st)
            (MAX_MODULE_HARDRESET_WAIT cfg);
      mret (if c =? MAX_MODULE_HARDRESET_WAIT cfg then - EBUSY else 0).

(** *** PRM VP *)

Record omap3_prm_irq : Type := Omap3PrmIrq {
  vp_tranxdone_status : Z;
  abb_tranxdone_status : Z
}.

(** Modelled from the spec: [OMAP3_PRM_IRQ_VDD_MPU_ID] is not part of this
    file; the rail identifiers are a dense enumeration of the voltage rails,
    MPU first. *)
Definition OMAP3_PRM_IRQ_VDD_MPU_ID : nat := 0.

(** Modelled from the spec: [OMAP3_PRM_IRQ_VDD_CORE_ID] is not part of this
    file; the core rail is the second rail. *)
Definition OMAP3_PRM_IRQ_VDD_CORE_ID : nat := 1.

(** The table is built by designated initialisers; a field that is not
    named is zero. *)
Definition omap3_prm_irqs : list omap3_prm_irq :=
  <[OMAP3_PRM_IRQ_VDD_CORE_ID :=
      {| vp_tranxdone_status := OMAP3430_VP2_TRANXDONE_ST_MASK cfg;
         abb_tranxdone_status := 0 (* no abb for core *) |}]>
    (<[OMAP3_PRM_IRQ_VDD_MPU_ID :=
        {| vp_tranxdone_status := OMAP3430_VP1_TRANXDONE_ST_MASK cfg;
           abb_tranxdone_status := OMAP3630_ABB_LDO_TRANXDONE_ST_MASK cfg |}]>
       (replicate 2 {| vp_tranxdone_status := 0;
                       abb_tranxdone_status := 0 |})).

(** The entry [omap3_prm_irqs[irq_id]], read where the source dereferences
    [irq]: in the check functions after the register read, in the clear
    functions when the argument of the write is evaluated. *)
Definition irq_entry (irq_id : Z) : io omap3_prm_irq :=
  if irq_id <? 0 then undefined
  else
    match omap3_prm_irqs !! Z.to_nat irq_id with
    | Some irq => mret irq
    | None => undefined
    end.

Definition omap3_prm_vp_check_txdone (irq_id : Z) : io Z :=
  irqstatus ← omap2_prm_read_mod_reg (OCP_MOD cfg)
                 (OMAP3_PRM_IRQSTATUS_MPU_OFFSET cfg);
  irq ← irq_entry irq_id;
  mret (Z.land irqstatus (vp_tranxdone_status irq)).

Definition omap3_prm_vp_clear_txdone (irq_id : Z) : io unit :=
  irq ← irq_entry irq_id;
  omap2_prm_write_mod_reg (vp_tranxdone_status irq)
    (OCP_MOD cfg) (OMAP3_PRM_IRQSTATUS_MPU_OFFSET cfg).

Definition omap36xx_prm_abb_check_txdone (irq_id : Z) : io Z :=
  irqstatus ← omap2_prm_read_mod_reg (OCP_MOD cfg)
                 (OMAP3_PRM_IRQSTATUS_MPU_OFFSET cfg);
  irq ← irq_entry irq_id;
  mret (Z.land irqstatus (abb_tranxdone_status irq)).

Definition omap36xx_prm_abb_clear_txdone (irq_id : Z) : io unit :=
  irq ← irq_entry irq_id;
  omap2_prm_write_mod_reg (abb_tranxdone_status irq)
    (OCP_MOD cfg) (OMAP3_PRM_IRQSTATUS_MPU_OFFSET cfg).

Definition omap3_prm_vcvp_read (offset : Z) : io Z :=
  omap2_prm_read_mod_reg (OMAP3430_GR_MOD cfg) offset.

Definition omap3_prm_vcvp_write (val offset : Z) : io unit :=
  omap2_prm_write_mod_reg val (OMAP3430_GR_MOD cfg) offset.

Definition omap3_prm_vcvp_rmw (mask bits offset : Z) : io Z :=
  omap2_prm_rmw_mod_reg_bits mask bits (OMAP3430_GR_MOD cfg) offset.

(** *** Multi-base router (CONFIG_MACH_OMAP_LATONA) *)

Definition DEFAULT_BASE : Z := 0x0.
Definition PRM_BASE : Z := 0x1.
Definition PRCM_MPU_BASE : Z := 0x2.
Definition CM2_BASE : Z := 0x3.
Definition BASE_ID_SHIFT : Z := 13.
Definition BASE_ID_MASK : Z := 0x3.
Definition MOD_MASK : Z := 0x1FFF.

Definition __omap_prcm_read (base module reg : Z) : io Z :=
  if base =? 0 then BUG
  else __raw_readl (base + module + reg).

Definition __omap_prcm_write (value base module reg : Z) : io unit :=
  if base =? 0 then BUG
  else __raw_writel value (base + module + reg).

(** Read a register in a CM module. *)
Definition cm_read_mod_reg (module idx : Z) : io Z :=
  let base := u32 (Z.shiftr (Z.abs module) BASE_ID_SHIFT) in
  let module := s16 (Z.land module MOD_MASK) in
  if base =? PRM_BASE then __omap_prcm_read (prm_base cfg) module idx
  else if base =? CM2_BASE then __omap_prcm_read (cm2_base cfg) module idx
  else if base =? DEFAULT_BASE then __omap_prcm_read (cm_base cfg) module idx
  else (* pr_err("Unknown CM submodule base\n") *) mret 0.

Definition cm_write_mod_reg (val module idx : Z) : io unit :=
  let base := u32 (Z.shiftr (Z.abs module) BASE_ID_SHIFT) in
  let module := s16 (Z.land module MOD_MASK) in
  if base =? PRM_BASE then __omap_prcm_write val (prm_base cfg) module idx
  else if base =? CM2_BASE then __omap_prcm_write val (cm2_base cfg) module idx
  else if base =? DEFAULT_BASE then
    __omap_prcm_write val (cm_base cfg) module idx
  else (* pr_err("Unknown CM submodule base\n") *) mret tt.

(** *** Notions used to state the properties *)

(** The I/O address of register [idx] of PRM module [module]. *)
Definition prm_reg (module idx : Z) : Z := prm_base cfg + module + u16 idx.

(** The register contents after [k] delays of one microsecond. *)
Fixpoint delays (k : nat) (r : regfile) : regfile :=
  match k with
  | O => r
  | S k' => delays k' (bus_delay hw r)
  end.

(** The number of polls that fail before bit [n] of register [a] is first
    read as set, when at most [budget] polls are made, one delay apart. *)
Fixpoint first_raised (budget : nat) (a n : Z) (r : regfile) : option nat :=
  match budget with
  | O => None
  | S b =>
      if Z.testbit (peek r a) n then Some O
      else S <$> first_raised b a n (bus_delay hw r)
  end.

(** The hardreset registers of a PRM module. *)
Definition rstctrl_reg (prm_mod : Z) : Z := prm_reg prm_mod (OMAP2_RM_RSTCTRL cfg).
Definition rstst_reg (prm_mod : Z) : Z := prm_reg prm_mod (OMAP2_RM_RSTST cfg).

(** The interrupt status register of the MPU. *)
Definition irqstatus_reg : Z :=
  prm_base cfg + OCP_MOD cfg + OMAP3_PRM_IRQSTATUS_MPU_OFFSET cfg.

(** The register contents once the status bit [st_shift] has been written
    to RM_RSTST, the value then written to RM_RSTCTRL to release the line
    [rst_shift], and the register contents after that second write. *)
Definition status_cleared (prm_mod st_shift : Z) (r : regfile) : regfile :=
  bus_write hw (rstst_reg prm_mod) (2 ^ st_shift) r.

Definition release_value (prm_mod rst_shift st_shift : Z) (r : regfile) : Z :=
  Z.land (peek (status_cleared prm_mod st_shift r) (rstctrl_reg prm_mod))
         (not32 (2 ^ rst_shift)).

Definition released (prm_mod rst_shift st_shift : Z) (r : regfile) : regfile :=
  bus_write hw (rstctrl_reg prm_mod)
    (release_value prm_mod rst_shift st_shift r)
    (status_cleared prm_mod st_shift r).

End PRM.

(** ** An OMAP3630 board

    A platform with the header values of an OMAP3630, a second one that is
    neither an OMAP2 nor an OMAP3, and two models of the PRM hardware for the
    IVA2 reset lines: one that completes a reset in a microsecond, one that
    never does. *)

Definition omap3630 : platform := {|
  prm_base := 0xfa306800;
  cm_base := 0xfa004800;
  cm2_base := 0;
  cpu_is_omap24xx := false;
  cpu_is_omap34xx := true;
  OMAP2_RM_RSTCTRL := 0x0050;
  OMAP2_RM_RSTST := 0x0058;
  MAX_MODULE_HARDRESET_WAIT := 10000;
  OCP_MOD := 0x000;
  OMAP3430_GR_MOD := 0xa00;
  OMAP3_PRM_IRQSTATUS_MPU_OFFSET := 0x0018;
  OMAP3430_VP1_TRANXDONE_ST_MASK := 2 ^ 15;
  OMAP3430_VP2_TRANXDONE_ST_MASK := 2 ^ 21;
  OMAP3630_ABB_LDO_TRANXDONE_ST_MASK := 2 ^ 26
|}.

Definition other_chip : platform := {|
  prm_base := prm_base omap3630;
  cm_base := cm_base omap3630;
  cm2_base := 0xfc008000;
  cpu_is_omap24xx := false;
  cpu_is_omap34xx := false;
  OMAP2_RM_RSTCTRL := OMAP2_RM_RSTCTRL omap3630;
  OMAP2_RM_RSTST := OMAP2_RM_RSTST omap3630;
  MAX_MODULE_HARDRESET_WAIT := MAX_MODULE_HARDRESET_WAIT omap3630;
  OCP_MOD := OCP_MOD omap3630;
  OMAP3430_GR_MOD := OMAP3430_GR_MOD omap3630;
  OMAP3_PRM_IRQSTATUS_MPU_OFFSET := OMAP3_PRM_IRQSTATUS_MPU_OFFSET omap3630;
  OMAP3430_VP1_TRANXDONE_ST_MASK := OMAP3430_VP1_TRANXDONE_ST_MASK omap3630;
  OMAP3430_VP2_TRANXDONE_ST_MASK := OMAP3430_VP2_TRANXDONE_ST_MASK omap3630;
  OMAP3630_ABB_LDO_TRANXDONE_ST_MASK :=
    OMAP3630_ABB_LDO_TRANXDONE_ST_MASK omap3630
|}.

(** The same board with a poll budget of 100 microseconds. *)
Definition short_wait : platform := {|
  prm_base := prm_base omap3630;
  cm_base := cm_base omap3630;
  cm2_base := cm2_base omap3630;
  cpu_is_omap24xx := cpu_is_omap24xx omap3630;
  cpu_is_omap34xx := cpu_is_omap34xx omap3630;
  OMAP2_RM_RSTCTRL := OMAP2_RM_RSTCTRL omap3630;
  OMAP2_RM_RSTST := OMAP2_RM_RSTST omap3630;
  MAX_MODULE_HARDRESET_WAIT := 100;
  OCP_MOD := OCP_MOD omap3630;
  OMAP3430_GR_MOD := OMAP3430_GR_MOD omap3630;
  OMAP3_PRM_IRQSTATUS_MPU_OFFSET := OMAP3_PRM_IRQSTATUS_MPU_OFFSET omap3630;
  OMAP3430_VP1_TRANXDONE_ST_MASK := OMAP3430_VP1_TRANXDONE_ST_MASK omap3630;
  OMAP3430_VP2_TRANXDONE_ST_MASK := OMAP3430_VP2_TRANXDONE_ST_MASK omap3630;
  OMAP3630_ABB_LDO_TRANXDONE_ST_MASK :=
    OMAP3630_ABB_LDO_TRANXDONE_ST_MASK omap3630
|}.

Definition OMAP3430_IVA2_MOD : Z := - 0x800.
Definition CORE_MOD : Z := 0x200.

(** RM_RSTST of IVA2 and PRM_IRQSTATUS_MPU are write-one-to-clear.  Once a
    reset line of IVA2 (bits 0 to 2 of RM_RSTCTRL) is released, the
    responsive PRM raises its status bit (bits 8 to 10 of RM_RSTST). *)
Definition iva2_prm : hardware := {|
  kind_of a :=
    if (a =? rstst_reg omap3630 OMAP3430_IVA2_MOD) || (a =? irqstatus_reg omap3630)
    then WriteOneToClear else Storage;
  latch r a :=
    if a =? rstst_reg omap3630 OMAP3430_IVA2_MOD
    then Z.shiftl (Z.land (Z.lnot (r (rstctrl_reg omap3630 OMAP3430_IVA2_MOD))) 7) 8
    else 0
|}.

Definition stuck_prm : hardware := {|
  kind_of := kind_of iva2_prm;
  latch _ _ := 0
|}.

(** All three IVA2 lines in reset, a stale status bit, VP1 done pending. *)
Definition iva2_in_reset : bus :=
  Bus (fun a =>
         if a =? rstctrl_reg omap3630 OMAP3430_IVA2_MOD then 0x7
         else if a =? rstst_reg omap3630 OMAP3430_IVA2_MOD then 0x100
         else if a =? irqstatus_reg omap3630 then 0x8000
         else 0)
      [].

(** IVA2 out of reset. *)
Definition iva2_running : bus :=
  Bus (fun a => if a =? rstst_reg omap3630 OMAP3430_IVA2_MOD then 0x700 else 0)
      [].

(** The claim that the bit-extraction helper is guarded against a zero
    mask: it returns 0 or stops in an explicit failure. *)
Definition zero_mask_guarded (cfg : platform) (domain idx : Z) (s : bus) : Prop :=
  (exists s', omap2_prm_read_mod_bits_shift cfg domain idx 0 s = Ret 0 s') \/
  omap2_prm_read_mod_bits_shift cfg domain idx 0 s = Bug.

(** ** Facts about machine integers *)

(** The base region a selector of the router names, if any. *)
Definition router_base (cfg : platform) (sel : Z) : option Z :=
  if sel =? PRM_BASE then Some (prm_base cfg)
  else if sel =? CM2_BASE then Some (cm2_base cfg)
  else if sel =? DEFAULT_BASE then Some (cm_base cfg)
  else None.

(** The mask of a field of [w] bits whose lowest bit is bit [sh]. *)
Definition field_mask (w sh : Z) : Z := Z.shiftl (Z.ones w) sh.

Lemma u32_range x : 0 <= u32 x < 2 ^ 32.
Proof.
  unfold u32. rewrite Z.land_ones by lia. apply Z.mod_pos_bound. lia.
Qed.

Lemma u32_id x : 0 <= x < 2 ^ 32 -> u32 x = x.
Proof.
  intros H. unfold u32. rewrite Z.land_ones by lia. apply Z.mod_small. lia.
Qed.

Lemma u32_testbit x i :
  0 <= i -> Z.testbit (u32 x) i = Z.testbit x i && (i <? 32).
Proof.
  intros Hi. unfold u32. rewrite Z.land_spec. f_equal.
  destruct (Z.ltb_spec i 32).
  - apply Z.ones_spec_low. lia.
  - apply Z.ones_spec_high. lia.
Qed.

Lemma u32_idem x : u32 (u32 x) = u32 x.
Proof. apply u32_id, u32_range. Qed.

Lemma peek_range r a : 0 <= peek r a < 2 ^ 32.
Proof. apply u32_range. Qed.

Lemma land_range a b : 0 <= a < 2 ^ 32 -> 0 <= Z.land a b < 2 ^ 32.
Proof.
  intros Ha. rewrite <- (u32_id a) by exact Ha. unfold u32.
  rewrite <- Z.land_assoc, (Z.land_comm (Z.ones 32)), Z.land_assoc.
  rewrite Z.land_ones by lia. apply Z.mod_pos_bound. lia.
Qed.

Lemma bit32 n : 0 <= n < 32 -> u32 (Z.shiftl 1 n) = 2 ^ n.
Proof.
  intros Hn. rewrite Z.shiftl_1_l. apply u32_id. split.
  - apply Z.pow_nonneg. lia.
  - apply Z.pow_lt_mono_r; lia.
Qed.

Lemma lowest_set_bit_nonneg p : 0 <= lowest_set_bit p.
Proof. induction p; simpl; lia. Qed.

Lemma lowest_set_bit_set p : Z.testbit (Zpos p) (lowest_set_bit p) = true.
Proof.
  induction p as [q IH | q IH |]; try reflexivity.
  cbn [lowest_set_bit]. change (Zpos q~0) with (2 * Zpos q).
  rewrite Z.testbit_even_succ by apply lowest_set_bit_nonneg. exact IH.
Qed.

Lemma lowest_set_bit_least p j :
  0 <= j < lowest_set_bit p -> Z.testbit (Zpos p) j = false.
Proof.
  revert j. induction p as [q IH | q IH |]; cbn [lowest_set_bit]; intros j Hj;
    try lia.
  change (Zpos q~0) with (2 * Zpos q).
  destruct (Z.eq_dec j 0) as [-> | Hne].
  - apply Z.testbit_even_0.
  - replace j with (Z.succ (j - 1)) by lia.
    rewrite Z.testbit_even_succ by lia. apply IH. lia.
Qed.

Lemma ffs_bit n s : 0 <= n -> __ffs (2 ^ n) s = Ret n s.
Proof.
  intros Hn. assert (Hpos : 0 < 2 ^ n) by (apply Z.pow_pos_nonneg; lia).
  destruct (2 ^ n) as [| p | p] eqn:E; try lia.
  cbn [__ffs]. unfold mret, io_ret. f_equal.
  pose proof (lowest_set_bit_set p) as Hset. rewrite <- E in Hset.
  destruct (Z.eq_dec (lowest_set_bit p) n) as [-> | Hne]; [reflexivity |].
  rewrite Z.pow2_bits_false in Hset by lia. discriminate.
Qed.

Lemma extract_bit v n :
  0 <= n -> Z.shiftr (Z.land v (2 ^ n)) n = Z.b2z (Z.testbit v n).
Proof.
  intros Hn. apply Z.bits_inj'. intros i Hi.
  rewrite Z.shiftr_spec, Z.land_spec by lia.
  destruct (Z.eq_dec i 0) as [-> | Hne].
  - rewrite Z.add_0_l, Z.pow2_bits_true by lia.
    rewrite andb_true_r. destruct (Z.testbit v n); reflexivity.
  - rewrite Z.pow2_bits_false by lia. rewrite andb_false_r.
    destruct (Z.testbit v n); cbn [Z.b2z].
    + symmetry. change 1 with (2 ^ 0). apply Z.pow2_bits_false. lia.
    + symmetry. apply Z.bits_0.
Qed.

Lemma not32_testbit x i :
  0 <= i -> Z.testbit (not32 x) i = negb (Z.testbit x i) && (i <? 32).
Proof.
  intros Hi. unfold not32. rewrite u32_testbit by lia.
  rewrite Z.lnot_spec by lia. reflexivity.
Qed.

Lemma writes_app t1 t2 : writes (t1 ++ t2) = writes t1 ++ writes t2.
Proof.
  induction t1 as [| [a | a v] t1 IH]; cbn [writes app]; [reflexivity | exact IH |].
  f_equal. exact IH.
Qed.

Lemma writes_reads a n : writes (repeat (Rd a) n) = [].
Proof. induction n; cbn [repeat writes]; auto. Qed.

(** ** Runs of the accessors *)

Section Runs.

Variable cfg : platform.
Variable hw : hardware.

Lemma shl32_run n s : 0 <= n < 32 -> shl32 1 n s = Ret (2 ^ n) s.
Proof.
  intros Hn. unfold shl32.
  replace ((0 <=? n) && (n <? 32)) with true
    by (symmetry; apply andb_true_iff; split; [apply Z.leb_le | apply Z.ltb_lt]; lia).
  rewrite bit32 by lia. reflexivity.
Qed.

Lemma rmw_run mask bits module idx s :
  omap2_prm_rmw_mod_reg_bits cfg hw mask bits module idx s =
  let a := prm_reg cfg module idx in
  let v := Z.lor (Z.land (peek (regs s) a) (not32 mask)) bits in
  Ret v (Bus (bus_write hw a v (regs s)) (trace s ++ [Rd a; Wr a v])).
Proof.
  unfold omap2_prm_rmw_mod_reg_bits, omap2_prm_read_mod_reg,
    omap2_prm_write_mod_reg, __raw_readl, __raw_writel, mbind, io_bind, mret,
    io_ret, prm_reg.
  cbn [regs trace]. rewrite <- app_assoc. reflexivity.
Qed.

Lemma read_bit_run domain idx n s :
  0 <= n ->
  omap2_prm_read_mod_bits_shift cfg domain idx (2 ^ n) s =
  let a := prm_reg cfg domain idx in
  Ret (Z.b2z (Z.testbit (peek (regs s) a) n))
      (Bus (regs s) (trace s ++ [Rd a])).
Proof.
  intros Hn.
  unfold omap2_prm_read_mod_bits_shift, omap2_prm_read_mod_reg, __raw_readl,
    mbind, io_bind, prm_reg.
  rewrite ffs_bit by lia. unfold mret, io_ret.
  rewrite extract_bit by lia. reflexivity.
Qed.

Lemma delays_storage k r a :
  kind_of hw a = Storage -> delays hw k r a = r a.
Proof.
  intros Hk. revert r. induction k as [| k IH]; intros r; cbn [delays].
  - reflexivity.
  - rewrite IH. unfold bus_delay. rewrite Hk. reflexivity.
Qed.

Lemma first_raised_bound budget a n r k :
  first_raised hw budget a n r = Some k -> (k < budget)%nat.
Proof.
  revert r k. induction budget as [| b IH]; intros r k; cbn [first_raised].
  - discriminate.
  - destruct (Z.testbit (peek r a) n).
    + intros [= <-]. lia.
    + destruct (first_raised hw b a n (bus_delay hw r)) as [j |] eqn:E;
        cbn; intros [= <-]. apply IH in E. lia.
Qed.

(** The poll finds the bit exactly when it is set after fewer than
    [budget] delays. *)
Lemma first_raised_None budget a n r :
  first_raised hw budget a n r = None <->
  forall j, (j < budget)%nat -> Z.testbit (peek (delays hw j r) a) n = false.
Proof.
  revert r. induction budget as [| b IH]; intros r; cbn [first_raised].
  - split; [intros _ j Hj; lia | reflexivity].
  - destruct (Z.testbit (peek r a) n) eqn:E.
    + split; [discriminate |]. intros H. specialize (H O ltac:(lia)).
      cbn [delays] in H. congruence.
    + destruct (first_raised hw b a n (bus_delay hw r)) as [j |] eqn:F; cbn.
      * split; [discriminate |]. intros H.
        assert (G : first_raised hw b a n (bus_delay hw r) = None).
        { apply IH. intros i Hi. apply (H (S i)). lia. }
        congruence.
      * split; [| reflexivity]. intros _ [| j] Hj; cbn [delays]; [exact E |].
        apply (proj1 (IH _) F). lia.
Qed.

Lemma first_raised_Some budget a n r k :
  first_raised hw budget a n r = Some k ->
  Z.testbit (peek (delays hw k r) a) n = true /\
  forall j, (j < k)%nat -> Z.testbit (peek (delays hw j r) a) n = false.
Proof.
  revert r k. induction budget as [| b IH]; intros r k; cbn [first_raised].
  - discriminate.
  - destruct (Z.testbit (peek r a) n) eqn:E.
    + intros [= <-]. split; [exact E | intros j Hj; lia].
    + destruct (first_raised hw b a n (bus_delay hw r)) as [i |] eqn:F;
        cbn; intros [= <-]. destruct (IH _ _ F) as [H1 H2].
      split; [exact H1 |]. intros [| j] Hj; cbn [delays]; [exact E |].
      apply H2. lia.
Qed.

Lemma first_raised_seen budget a n r k :
  (k < budget)%nat -> Z.testbit (peek (delays hw k r) a) n = true ->
  exists j, (j <= k)%nat /\ first_raised hw budget a n r = Some j.
Proof.
  intros Hk Hset.
  destruct (first_raised hw budget a n r) as [j |] eqn:E.
  - exists j. split; [| reflexivity].
    destruct (le_lt_dec j k) as [Hle | Hlt]; [exact Hle |].
    destruct (first_raised_Some _ _ _ _ _ E) as [_ H].
    rewrite (H k Hlt) in Hset. discriminate.
  - rewrite (proj1 (first_raised_None _ _ _ _) E k Hk) in Hset. discriminate.
Qed.

(** The poll loop on a single status bit. *)
Lemma poll_run domain idx n budget index s :
  0 <= n ->
  let a := prm_reg cfg domain idx in
  test_timeout_loop hw (omap2_prm_read_mod_bits_shift cfg domain idx (2 ^ n))
    budget index s =
  match first_raised hw budget a n (regs s) with
  | Some k =>
      Ret (index + Z.of_nat k)
          (Bus (delays hw k (regs s)) (trace s ++ repeat (Rd a) (S k)))
  | None =>
      Ret (index + Z.of_nat budget)
          (Bus (delays hw budget (regs s)) (trace s ++ repeat (Rd a) budget))
  end.
Proof.
  intros Hn a. revert index s.
  induction budget as [| b IH]; intros index s.
  - cbn [test_timeout_loop first_raised delays repeat Z.of_nat].
    unfold mret, io_ret. rewrite Z.add_0_r, app_nil_r. destruct s; reflexivity.
  - cbn [test_timeout_loop first_raised]. unfold mbind, io_bind at 1.
    rewrite read_bit_run by lia. fold a. cbn zeta.
    destruct (Z.testbit (peek (regs s) a) n) eqn:E; cbn [Z.b2z Z.eqb].
    + unfold mret, io_ret. cbn [delays repeat Z.of_nat].
      rewrite Z.add_0_r. reflexivity.
    + unfold mbind, io_bind, udelay. cbn [regs trace].
      rewrite IH. cbn [regs trace].
      destruct (first_raised hw b a n (bus_delay hw (regs s))) as [k |];
        cbn [fmap option_fmap option_map delays repeat];
        rewrite <- app_assoc; cbn [app]; f_equal; lia.
Qed.

End Runs.

(** ** Read-modify-write *)

(** C2: with [bits] a subset of [mask], a read-modify-write of a storage
    register leaves every masked bit equal to the bit of [bits] and every
    other bit as it was, touches no other register, and returns the value it
    wrote. *)
Theorem rmw_mod_reg_bits_masked cfg hw mask bits module idx s :
  0 <= mask < 2 ^ 32 ->
  Z.land bits mask = bits ->
  kind_of hw (prm_reg cfg module idx) = Storage ->
  let a := prm_reg cfg module idx in
  exists v s',
    omap2_prm_rmw_mod_reg_bits cfg hw mask bits module idx s = Ret v s' /\
    trace s' = trace s ++ [Rd a; Wr a v] /\
    peek (regs s') a = v /\
    Z.land v mask = bits /\
    (forall i, 0 <= i ->
       Z.testbit (peek (regs s') a) i =
       if Z.testbit mask i then Z.testbit bits i
       else Z.testbit (peek (regs s) a) i) /\
    (forall b, b <> a -> regs s' b = regs s b).
Proof.
  intros Hmask Hsub Hkind a.
  assert (Hbit : forall i, 0 <= i ->
            Z.testbit bits i = Z.testbit bits i && Z.testbit mask i).
  { intros i Hi. rewrite <- Z.land_spec, Hsub. reflexivity. }
  assert (Hmask32 : forall i, 32 <= i -> Z.testbit mask i = false).
  { intros i Hi. rewrite <- (u32_id mask) by lia. rewrite u32_testbit by lia.
    replace (i <? 32) with false by (symmetry; apply Z.ltb_ge; lia).
    apply andb_false_r. }
  set (v := Z.lor (Z.land (peek (regs s) a) (not32 mask)) bits).
  assert (Hv : forall i, 0 <= i ->
            Z.testbit v i =
            if Z.testbit mask i then Z.testbit bits i
            else Z.testbit (peek (regs s) a) i).
  { intros i Hi. unfold v. rewrite Z.lor_spec, Z.land_spec, not32_testbit by lia.
    rewrite (Hbit i Hi). unfold peek. rewrite u32_testbit by lia.
    destruct (Z.testbit mask i) eqn:Em, (Z.testbit bits i),
      (Z.testbit (regs s a) i), (i <? 32) eqn:E32; try reflexivity. }
  assert (Hv32 : u32 v = v).
  { apply Z.bits_inj'. intros i Hi. rewrite u32_testbit by lia.
    destruct (Z.ltb_spec i 32) as [Hlt | Hge]; [apply andb_true_r |].
    rewrite andb_false_r, (Hv i Hi), (Hmask32 i Hge).
    unfold peek. rewrite u32_testbit by lia.
    replace (i <? 32) with false by (symmetry; apply Z.ltb_ge; lia).
    rewrite andb_false_r. reflexivity. }
  assert (Hpeek : peek (bus_write hw a v (regs s)) a = v).
  { unfold bus_write. fold a in Hkind. rewrite Hkind. unfold peek, poke.
    rewrite Z.eqb_refl. exact Hv32. }
  exists v, (Bus (bus_write hw a v (regs s)) (trace s ++ [Rd a; Wr a v])).
  rewrite rmw_run. cbn [regs trace]. fold a. fold v.
  repeat split.
  - exact Hpeek.
  - apply Z.bits_inj'. intros i Hi. rewrite Z.land_spec, (Hv i Hi).
    rewrite (Hbit i Hi). destruct (Z.testbit mask i), (Z.testbit bits i);
      rewrite ?andb_false_r; reflexivity.
  - intros i Hi. rewrite Hpeek. apply Hv. exact Hi.
  - intros b Hb. unfold bus_write. fold a in Hkind. rewrite Hkind. unfold poke.
    destruct (Z.eqb_spec b a); [contradiction | reflexivity].
Qed.

Lemma rmw_mod_reg_bits_masked_witness :
  0 <= 0x7 < 2 ^ 32 /\
  Z.land 0x5 0x7 = 0x5 /\
  kind_of iva2_prm (prm_reg omap3630 OMAP3430_IVA2_MOD 0x50) = Storage /\
  exists v s',
    omap2_prm_rmw_mod_reg_bits omap3630 iva2_prm 0x7 0x5 OMAP3430_IVA2_MOD 0x50
      iva2_running = Ret v s' /\
    peek (regs s') (prm_reg omap3630 OMAP3430_IVA2_MOD 0x50) = v /\
    Z.land v 0x7 = 0x5.
Proof.
  assert (H1 : 0 <= 0x7 < 2 ^ 32) by lia.
  assert (H2 : Z.land 0x5 0x7 = 0x5) by reflexivity.
  assert (H3 : kind_of iva2_prm (prm_reg omap3630 OMAP3430_IVA2_MOD 0x50) = Storage)
    by reflexivity.
  split; [exact H1 | split; [exact H2 | split; [exact H3 |]]].
  destruct (rmw_mod_reg_bits_masked omap3630 iva2_prm 0x7 0x5 OMAP3430_IVA2_MOD
              0x50 iva2_running H1 H2 H3) as (v & s' & Hrun & _ & Hpeek & Hv & _).
  exists v, s'. split; [exact Hrun | split; [exact Hpeek | exact Hv]].
Defined.

(** ** Hardreset controller *)

Lemma release_value_bit cfg hw prm_mod rst_shift st_shift r :
  0 <= rst_shift < 32 ->
  Z.testbit (release_value cfg hw prm_mod rst_shift st_shift r) rst_shift = false.
Proof.
  intros Hs. unfold release_value.
  rewrite Z.land_spec, not32_testbit by lia.
  rewrite Z.pow2_bits_true by lia. cbn [negb andb]. apply andb_false_r.
Qed.

Lemma release_value_range cfg hw prm_mod rst_shift st_shift r :
  0 <= release_value cfg hw prm_mod rst_shift st_shift r < 2 ^ 32.
Proof. unfold release_value. apply land_range, peek_range. Qed.

Lemma released_rstctrl cfg hw prm_mod rst_shift st_shift r :
  kind_of hw (rstctrl_reg cfg prm_mod) = Storage ->
  peek (released cfg hw prm_mod rst_shift st_shift r) (rstctrl_reg cfg prm_mod) =
  release_value cfg hw prm_mod rst_shift st_shift r.
Proof.
  intros Hk. unfold released, bus_write. rewrite Hk. unfold peek at 1, poke.
  rewrite Z.eqb_refl. apply u32_id, release_value_range.
Qed.

(** The run of [omap2_prm_deassert_hardreset] up to the poll: one read of
    RM_RSTCTRL, the read-modify-write of RM_RSTST, the read-modify-write of
    RM_RSTCTRL. *)
Lemma deassert_hardreset_prefix cfg hw prm_mod rst_shift st_shift s :
  cpu_is_omap24xx cfg || cpu_is_omap34xx cfg = true ->
  0 <= rst_shift < 32 ->
  0 <= st_shift < 32 ->
  Z.testbit (peek (regs s) (rstctrl_reg cfg prm_mod)) rst_shift = true ->
  omap2_prm_deassert_hardreset cfg hw prm_mod rst_shift st_shift s =
  (c ← omap_test_timeout hw
         (omap2_prm_read_mod_bits_shift cfg prm_mod (OMAP2_RM_RSTST cfg)
            (2 ^ st_shift))
         (MAX_MODULE_HARDRESET_WAIT cfg);
   mret (if c =? MAX_MODULE_HARDRESET_WAIT cfg then - EBUSY else 0))
    (Bus (released cfg hw prm_mod rst_shift st_shift (regs s))
         (trace s ++
          [Rd (rstctrl_reg cfg prm_mod);
           Rd (rstst_reg cfg prm_mod);
           Wr (rstst_reg cfg prm_mod) (2 ^ st_shift);
           Rd (rstctrl_reg cfg prm_mod);
           Wr (rstctrl_reg cfg prm_mod)
              (release_value cfg hw prm_mod rst_shift st_shift (regs s))])).
Proof.
  intros Hcpu Hrst Hst Hbit.
  unfold omap2_prm_deassert_hardreset. rewrite Hcpu. cbn [negb].
  unfold mbind at 1 2 3 4 5, io_bind at 1 2 3 4 5.
  rewrite shl32_run by lia. rewrite shl32_run by lia.
  rewrite read_bit_run by lia. cbn zeta. fold (rstctrl_reg cfg prm_mod).
  rewrite Hbit. cbn [Z.b2z Z.eqb].
  rewrite rmw_run. cbn zeta. cbn [regs trace]. fold (rstst_reg cfg prm_mod).
  rewrite rmw_run. cbn zeta. cbn [regs trace]. fold (rstctrl_reg cfg prm_mod).
  assert (Hst_val : Z.lor (Z.land (peek (regs s) (rstst_reg cfg prm_mod))
                             (not32 0xffffffff)) (2 ^ st_shift) = 2 ^ st_shift).
  { change (not32 0xffffffff) with 0. rewrite Z.land_0_r. reflexivity. }
  rewrite Hst_val. rewrite Z.lor_0_r.
  fold (status_cleared cfg hw prm_mod st_shift (regs s)).
  fold (release_value cfg hw prm_mod rst_shift st_shift (regs s)).
  fold (released cfg hw prm_mod rst_shift st_shift (regs s)).
  rewrite <- !app_assoc. reflexivity.
Qed.

(** The complete run: the prefix, then the polls of RM_RSTST. *)
Lemma deassert_hardreset_run cfg hw prm_mod rst_shift st_shift s :
  cpu_is_omap24xx cfg || cpu_is_omap34xx cfg = true ->
  0 <= rst_shift < 32 ->
  0 <= st_shift < 32 ->
  Z.testbit (peek (regs s) (rstctrl_reg cfg prm_mod)) rst_shift = true ->
  let budget := Z.to_nat (MAX_MODULE_HARDRESET_WAIT cfg) in
  let r2 := released cfg hw prm_mod rst_shift st_shift (regs s) in
  let t2 := trace s ++
            [Rd (rstctrl_reg cfg prm_mod);
             Rd (rstst_reg cfg prm_mod);
             Wr (rstst_reg cfg prm_mod) (2 ^ st_shift);
             Rd (rstctrl_reg cfg prm_mod);
             Wr (rstctrl_reg cfg prm_mod)
                (release_value cfg hw prm_mod rst_shift st_shift (regs s))] in
  omap2_prm_deassert_hardreset cfg hw prm_mod rst_shift st_shift s =
  match first_raised hw budget (rstst_reg cfg prm_mod) st_shift r2 with
  | Some k =>
      Ret 0 (Bus (delays hw k r2)
                 (t2 ++ repeat (Rd (rstst_reg cfg prm_mod)) (S k)))
  | None =>
      Ret (if Z.of_nat budget =? MAX_MODULE_HARDRESET_WAIT cfg
           then - EBUSY else 0)
          (Bus (delays hw budget r2)
               (t2 ++ repeat (Rd (rstst_reg cfg prm_mod)) budget))
  end.
Proof.
  intros Hcpu Hrst Hst Hbit budget r2 t2.
  rewrite deassert_hardreset_prefix by assumption.
  fold r2. fold t2. unfold mbind, io_bind, omap_test_timeout. fold budget.
  rewrite poll_run by lia. cbn [regs trace]. fold (rstst_reg cfg prm_mod).
  destruct (first_raised hw budget (rstst_reg cfg prm_mod) st_shift r2)
    as [k |] eqn:E; unfold mret, io_ret; rewrite Z.add_0_l; [| reflexivity].
  apply first_raised_bound in E.
  replace (Z.of_nat k =? MAX_MODULE_HARDRESET_WAIT cfg) with false;
    [reflexivity |].
  symmetry. apply Z.eqb_neq. unfold budget in E. lia.
Qed.

(** C1: on a supported chip, with the reset-control bit set and the status
    bit read as set at some poll within the budget, the call writes the
    status bit to RM_RSTST first and RM_RSTCTRL with the control bit cleared
    second, makes no other write, leaves the control bit cleared and
    returns 0. *)
Theorem deassert_hardreset_completes cfg hw prm_mod rst_shift st_shift k s :
  cpu_is_omap24xx cfg || cpu_is_omap34xx cfg = true ->
  0 <= rst_shift < 32 ->
  0 <= st_shift < 32 ->
  kind_of hw (rstctrl_reg cfg prm_mod) = Storage ->
  Z.testbit (peek (regs s) (rstctrl_reg cfg prm_mod)) rst_shift = true ->
  (k < Z.to_nat (MAX_MODULE_HARDRESET_WAIT cfg))%nat ->
  Z.testbit
    (peek (delays hw k (released cfg hw prm_mod rst_shift st_shift (regs s)))
          (rstst_reg cfg prm_mod)) st_shift = true ->
  exists s',
    omap2_prm_deassert_hardreset cfg hw prm_mod rst_shift st_shift s =
      Ret 0 s' /\
    writes (trace s') =
      writes (trace s) ++
      [Wr (rstst_reg cfg prm_mod) (2 ^ st_shift);
       Wr (rstctrl_reg cfg prm_mod)
          (release_value cfg hw prm_mod rst_shift st_shift (regs s))] /\
    Z.testbit (release_value cfg hw prm_mod rst_shift st_shift (regs s))
      rst_shift = false /\
    Z.testbit (peek (regs s') (rstctrl_reg cfg prm_mod)) rst_shift = false.
Proof.
  intros Hcpu Hrst Hst Hkind Hbit Hk Hseen.
  destruct (first_raised_seen hw _ _ _ _ _ Hk Hseen) as (j & _ & Hj).
  rewrite deassert_hardreset_run by assumption. cbn zeta. rewrite Hj.
  eexists. split; [reflexivity |]. cbn [regs trace].
  split; [| split].
  - rewrite !writes_app, writes_reads, app_nil_r. reflexivity.
  - apply release_value_bit. lia.
  - unfold peek. rewrite delays_storage by exact Hkind.
    fold (peek (released cfg hw prm_mod rst_shift st_shift (regs s))
            (rstctrl_reg cfg prm_mod)).
    rewrite released_rstctrl by exact Hkind. apply release_value_bit. lia.
Qed.

(** C3: on a supported chip, with the reset-control bit set and the status
    bit never read as set within the budget, the call returns -EBUSY; the
    write that clears the control bit precedes every poll, and the control
    bit is left cleared. *)
Theorem deassert_hardreset_timeout cfg hw prm_mod rst_shift st_shift s :
  cpu_is_omap24xx cfg || cpu_is_omap34xx cfg = true ->
  0 <= rst_shift < 32 ->
  0 <= st_shift < 32 ->
  kind_of hw (rstctrl_reg cfg prm_mod) = Storage ->
  Z.testbit (peek (regs s) (rstctrl_reg cfg prm_mod)) rst_shift = true ->
  0 <= MAX_MODULE_HARDRESET_WAIT cfg ->
  first_raised hw (Z.to_nat (MAX_MODULE_HARDRESET_WAIT cfg))
    (rstst_reg cfg prm_mod) st_shift
    (released cfg hw prm_mod rst_shift st_shift (regs s)) = None ->
  exists s',
    omap2_prm_deassert_hardreset cfg hw prm_mod rst_shift st_shift s =
      Ret (- EBUSY) s' /\
    trace s' =
      (trace s ++
       [Rd (rstctrl_reg cfg prm_mod);
        Rd (rstst_reg cfg prm_mod);
        Wr (rstst_reg cfg prm_mod) (2 ^ st_shift);
        Rd (rstctrl_reg cfg prm_mod);
        Wr (rstctrl_reg cfg prm_mod)
           (release_value cfg hw prm_mod rst_shift st_shift (regs s))]) ++
      repeat (Rd (rstst_reg cfg prm_mod))
        (Z.to_nat (MAX_MODULE_HARDRESET_WAIT cfg)) /\
    Z.testbit (release_value cfg hw prm_mod rst_shift st_shift (regs s))
      rst_shift = false /\
    Z.testbit (peek (regs s') (rstctrl_reg cfg prm_mod)) rst_shift = false.
Proof.
  intros Hcpu Hrst Hst Hkind Hbit Hmax Hnever.
  rewrite deassert_hardreset_run by assumption. cbn zeta. rewrite Hnever.
  rewrite Z2Nat.id, Z.eqb_refl by exact Hmax.
  eexists. split; [reflexivity |]. cbn [regs trace].
  split; [reflexivity | split].
  - apply release_value_bit. lia.
  - unfold peek. rewrite delays_storage by exact Hkind.
    fold (peek (released cfg hw prm_mod rst_shift st_shift (regs s))
            (rstctrl_reg cfg prm_mod)).
    rewrite released_rstctrl by exact Hkind. apply release_value_bit. lia.
Qed.

(** C4: on a supported chip, with the reset-control bit already 0, the call
    returns -EEXIST after a single read of RM_RSTCTRL: it makes no write and
    every register keeps its value. *)
Theorem deassert_hardreset_already_deasserted cfg hw prm_mod rst_shift st_shift s :
  cpu_is_omap24xx cfg || cpu_is_omap34xx cfg = true ->
  0 <= rst_shift < 32 ->
  0 <= st_shift < 32 ->
  Z.testbit (peek (regs s) (rstctrl_reg cfg prm_mod)) rst_shift = false ->
  exists s',
    omap2_prm_deassert_hardreset cfg hw prm_mod rst_shift st_shift s =
      Ret (- EEXIST) s' /\
    regs s' = regs s /\
    trace s' = trace s ++ [Rd (rstctrl_reg cfg prm_mod)] /\
    writes (trace s') = writes (trace s).
Proof.
  intros Hcpu Hrst Hst Hbit.
  unfold omap2_prm_deassert_hardreset. rewrite Hcpu. cbn [negb].
  unfold mbind at 1 2 3, io_bind at 1 2 3.
  rewrite shl32_run by lia. rewrite shl32_run by lia.
  rewrite read_bit_run by lia. cbn zeta. fold (rstctrl_reg cfg prm_mod).
  rewrite Hbit. cbn [Z.b2z Z.eqb].
  eexists. split; [reflexivity |]. cbn [regs trace].
  split; [reflexivity | split; [reflexivity |]].
  rewrite writes_app. cbn [writes]. apply app_nil_r.
Qed.

(** C6: on a chip that is neither an OMAP2 nor an OMAP3 each of the three
    hardreset operations returns -EINVAL and leaves the bus as it was: no
    register is read or written. *)
Theorem hardreset_invalid_chip cfg hw prm_mod shift rst_shift st_shift s :
  cpu_is_omap24xx cfg || cpu_is_omap34xx cfg = false ->
  omap2_prm_is_hardreset_asserted cfg prm_mod shift s = Ret (- EINVAL) s /\
  omap2_prm_assert_hardreset cfg hw prm_mod shift s = Ret (- EINVAL) s /\
  omap2_prm_deassert_hardreset cfg hw prm_mod rst_shift st_shift s =
    Ret (- EINVAL) s.
Proof.
  intros Hcpu.
  unfold omap2_prm_is_hardreset_asserted, omap2_prm_assert_hardreset,
    omap2_prm_deassert_hardreset.
  rewrite Hcpu. cbn [negb]. repeat split.
Qed.

(** C10: in [omap2_prm_deassert_hardreset] the first write goes to RM_RSTST
    and its value has the requested status bit set and every other bit
    zero, whatever the register held before. *)
Theorem deassert_hardreset_status_write cfg hw prm_mod rst_shift st_shift s :
  cpu_is_omap24xx cfg || cpu_is_omap34xx cfg = true ->
  0 <= rst_shift < 32 ->
  0 <= st_shift < 32 ->
  Z.testbit (peek (regs s) (rstctrl_reg cfg prm_mod)) rst_shift = true ->
  (forall s0,
     omap2_prm_rmw_mod_reg_bits cfg hw 0xffffffff (2 ^ st_shift) prm_mod
       (OMAP2_RM_RSTST cfg) s0 =
     Ret (2 ^ st_shift)
         (Bus (bus_write hw (rstst_reg cfg prm_mod) (2 ^ st_shift) (regs s0))
              (trace s0 ++ [Rd (rstst_reg cfg prm_mod);
                            Wr (rstst_reg cfg prm_mod) (2 ^ st_shift)]))) /\
  exists c s' w rest,
    omap2_prm_deassert_hardreset cfg hw prm_mod rst_shift st_shift s =
      Ret c s' /\
    writes (trace s') =
      writes (trace s) ++ Wr (rstst_reg cfg prm_mod) w :: rest /\
    forall i, 0 <= i -> Z.testbit w i = (i =? st_shift).
Proof.
  intros Hcpu Hrst Hst Hbit. split.
  - intros s0. rewrite rmw_run. cbn zeta. fold (rstst_reg cfg prm_mod).
    change (not32 0xffffffff) with 0. rewrite Z.land_0_r. reflexivity.
  - assert (Hw : forall i, 0 <= i -> Z.testbit (2 ^ st_shift) i = (i =? st_shift)).
    { intros i Hi. destruct (Z.eqb_spec i st_shift) as [-> | Hne].
      - apply Z.pow2_bits_true. lia.
      - apply Z.pow2_bits_false. lia. }
    rewrite deassert_hardreset_run by assumption. cbn zeta.
    destruct (first_raised hw _ _ _ _); do 4 eexists;
      (split; [reflexivity |]); cbn [regs trace];
      (split; [| exact Hw]);
      rewrite !writes_app, writes_reads, app_nil_r; reflexivity.
Qed.

Lemma deassert_hardreset_completes_witness :
  cpu_is_omap24xx omap3630 || cpu_is_omap34xx omap3630 = true /\
  0 <= 1 < 32 /\
  0 <= 9 < 32 /\
  kind_of iva2_prm (rstctrl_reg omap3630 OMAP3430_IVA2_MOD) = Storage /\
  Z.testbit (peek (regs iva2_in_reset) (rstctrl_reg omap3630 OMAP3430_IVA2_MOD))
    1 = true /\
  (1 < Z.to_nat (MAX_MODULE_HARDRESET_WAIT omap3630))%nat /\
  Z.testbit
    (peek (delays iva2_prm 1
             (released omap3630 iva2_prm OMAP3430_IVA2_MOD 1 9
                (regs iva2_in_reset)))
          (rstst_reg omap3630 OMAP3430_IVA2_MOD)) 9 = true /\
  exists s',
    omap2_prm_deassert_hardreset omap3630 iva2_prm OMAP3430_IVA2_MOD 1 9
      iva2_in_reset = Ret 0 s' /\
    writes (trace s') =
      writes (trace iva2_in_reset) ++
      [Wr (rstst_reg omap3630 OMAP3430_IVA2_MOD) (2 ^ 9);
       Wr (rstctrl_reg omap3630 OMAP3430_IVA2_MOD)
          (release_value omap3630 iva2_prm OMAP3430_IVA2_MOD 1 9
             (regs iva2_in_reset))] /\
    Z.testbit (release_value omap3630 iva2_prm OMAP3430_IVA2_MOD 1 9
                 (regs iva2_in_reset)) 1 = false /\
    Z.testbit (peek (regs s') (rstctrl_reg omap3630 OMAP3430_IVA2_MOD)) 1 = false.
Proof.
  assert (H1 : cpu_is_omap24xx omap3630 || cpu_is_omap34xx omap3630 = true)
    by reflexivity.
  assert (H2 : 0 <= 1 < 32) by lia.
  assert (H3 : 0 <= 9 < 32) by lia.
  assert (H4 : kind_of iva2_prm (rstctrl_reg omap3630 OMAP3430_IVA2_MOD) = Storage)
    by reflexivity.
  assert (H5 : Z.testbit
                 (peek (regs iva2_in_reset)
                    (rstctrl_reg omap3630 OMAP3430_IVA2_MOD)) 1 = true)
    by reflexivity.
  assert (H6 : (1 < Z.to_nat (MAX_MODULE_HARDRESET_WAIT omap3630))%nat)
    by (cbn [MAX_MODULE_HARDRESET_WAIT omap3630]; lia).
  assert (H7 : Z.testbit
                 (peek (delays iva2_prm 1
                          (released omap3630 iva2_prm OMAP3430_IVA2_MOD 1 9
                             (regs iva2_in_reset)))
                       (rstst_reg omap3630 OMAP3430_IVA2_MOD)) 9 = true)
    by (vm_compute; reflexivity).
  split; [exact H1 |]. split; [exact H2 |]. split; [exact H3 |].
  split; [exact H4 |]. split; [exact H5 |]. split; [exact H6 |].
  split; [exact H7 |].
  exact (deassert_hardreset_completes omap3630 iva2_prm OMAP3430_IVA2_MOD 1 9 1
           iva2_in_reset H1 H2 H3 H4 H5 H6 H7).
Defined.

Lemma deassert_hardreset_timeout_witness :
  cpu_is_omap24xx short_wait || cpu_is_omap34xx short_wait = true /\
  0 <= 1 < 32 /\
  0 <= 9 < 32 /\
  kind_of stuck_prm (rstctrl_reg short_wait OMAP3430_IVA2_MOD) = Storage /\
  Z.testbit (peek (regs iva2_in_reset) (rstctrl_reg short_wait OMAP3430_IVA2_MOD))
    1 = true /\
  0 <= MAX_MODULE_HARDRESET_WAIT short_wait /\
  first_raised stuck_prm (Z.to_nat (MAX_MODULE_HARDRESET_WAIT short_wait))
    (rstst_reg short_wait OMAP3430_IVA2_MOD) 9
    (released short_wait stuck_prm OMAP3430_IVA2_MOD 1 9 (regs iva2_in_reset)) =
    None /\
  exists s',
    omap2_prm_deassert_hardreset short_wait stuck_prm OMAP3430_IVA2_MOD 1 9
      iva2_in_reset = Ret (- EBUSY) s' /\
    trace s' =
      (trace iva2_in_reset ++
       [Rd (rstctrl_reg short_wait OMAP3430_IVA2_MOD);
        Rd (rstst_reg short_wait OMAP3430_IVA2_MOD);
        Wr (rstst_reg short_wait OMAP3430_IVA2_MOD) (2 ^ 9);
        Rd (rstctrl_reg short_wait OMAP3430_IVA2_MOD);
        Wr (rstctrl_reg short_wait OMAP3430_IVA2_MOD)
           (release_value short_wait stuck_prm OMAP3430_IVA2_MOD 1 9
              (regs iva2_in_reset))]) ++
      repeat (Rd (rstst_reg short_wait OMAP3430_IVA2_MOD))
        (Z.to_nat (MAX_MODULE_HARDRESET_WAIT short_wait)) /\
    Z.testbit (release_value short_wait stuck_prm OMAP3430_IVA2_MOD 1 9
                 (regs iva2_in_reset)) 1 = false /\
    Z.testbit (peek (regs s') (rstctrl_reg short_wait OMAP3430_IVA2_MOD)) 1 = false.
Proof.
  assert (H1 : cpu_is_omap24xx short_wait || cpu_is_omap34xx short_wait = true)
    by reflexivity.
  assert (H2 : 0 <= 1 < 32) by lia.
  assert (H3 : 0 <= 9 < 32) by lia.
  assert (H4 : kind_of stuck_prm (rstctrl_reg short_wait OMAP3430_IVA2_MOD) = Storage)
    by reflexivity.
  assert (H5 : Z.testbit
                 (peek (regs iva2_in_reset)
                    (rstctrl_reg short_wait OMAP3430_IVA2_MOD)) 1 = true)
    by reflexivity.
  assert (H6 : 0 <= MAX_MODULE_HARDRESET_WAIT short_wait)
    by (cbn [MAX_MODULE_HARDRESET_WAIT short_wait]; lia).
  assert (H7 : first_raised stuck_prm
                 (Z.to_nat (MAX_MODULE_HARDRESET_WAIT short_wait))
                 (rstst_reg short_wait OMAP3430_IVA2_MOD) 9
                 (released short_wait stuck_prm OMAP3430_IVA2_MOD 1 9
                    (regs iva2_in_reset)) = None)
    by (vm_compute; reflexivity).
  split; [exact H1 |]. split; [exact H2 |]. split; [exact H3 |].
  split; [exact H4 |]. split; [exact H5 |]. split; [exact H6 |].
  split; [exact H7 |].
  exact (deassert_hardreset_timeout short_wait stuck_prm OMAP3430_IVA2_MOD 1 9
           iva2_in_reset H1 H2 H3 H4 H5 H6 H7).
Defined.

Lemma deassert_hardreset_already_deasserted_witness :
  cpu_is_omap24xx omap3630 || cpu_is_omap34xx omap3630 = true /\
  0 <= 1 < 32 /\
  0 <= 9 < 32 /\
  Z.testbit (peek (regs iva2_running) (rstctrl_reg omap3630 OMAP3430_IVA2_MOD))
    1 = false /\
  exists s',
    omap2_prm_deassert_hardreset omap3630 iva2_prm OMAP3430_IVA2_MOD 1 9
      iva2_running = Ret (- EEXIST) s' /\
    regs s' = regs iva2_running /\
    trace s' =
      trace iva2_running ++ [Rd (rstctrl_reg omap3630 OMAP3430_IVA2_MOD)] /\
    writes (trace s') = writes (trace iva2_running).
Proof.
  assert (H1 : cpu_is_omap24xx omap3630 || cpu_is_omap34xx omap3630 = true)
    by reflexivity.
  assert (H2 : 0 <= 1 < 32) by lia.
  assert (H3 : 0 <= 9 < 32) by lia.
  assert (H4 : Z.testbit
                 (peek (regs iva2_running)
                    (rstctrl_reg omap3630 OMAP3430_IVA2_MOD)) 1 = false)
    by reflexivity.
  split; [exact H1 |]. split; [exact H2 |]. split; [exact H3 |].
  split; [exact H4 |].
  exact (deassert_hardreset_already_deasserted omap3630 iva2_prm
           OMAP3430_IVA2_MOD 1 9 iva2_running H1 H2 H3 H4).
Defined.

Lemma hardreset_invalid_chip_witness :
  cpu_is_omap24xx other_chip || cpu_is_omap34xx other_chip = false /\
  omap2_prm_is_hardreset_asserted other_chip OMAP3430_IVA2_MOD 1 iva2_in_reset =
    Ret (- EINVAL) iva2_in_reset /\
  omap2_prm_assert_hardreset other_chip iva2_prm OMAP3430_IVA2_MOD 1
    iva2_in_reset = Ret (- EINVAL) iva2_in_reset /\
  omap2_prm_deassert_hardreset other_chip iva2_prm OMAP3430_IVA2_MOD 1 9
    iva2_in_reset = Ret (- EINVAL) iva2_in_reset.
Proof.
  assert (H1 : cpu_is_omap24xx other_chip || cpu_is_omap34xx other_chip = false)
    by reflexivity.
  split; [exact H1 |].
  exact (hardreset_invalid_chip other_chip iva2_prm OMAP3430_IVA2_MOD 1 1 9
           iva2_in_reset H1).
Defined.

Lemma deassert_hardreset_status_write_witness :
  cpu_is_omap24xx omap3630 || cpu_is_omap34xx omap3630 = true /\
  0 <= 1 < 32 /\
  0 <= 9 < 32 /\
  Z.testbit (peek (regs iva2_in_reset) (rstctrl_reg omap3630 OMAP3430_IVA2_MOD))
    1 = true /\
  exists c s' w rest,
    omap2_prm_deassert_hardreset omap3630 iva2_prm OMAP3430_IVA2_MOD 1 9
      iva2_in_reset = Ret c s' /\
    writes (trace s') =
      writes (trace iva2_in_reset) ++
      Wr (rstst_reg omap3630 OMAP3430_IVA2_MOD) w :: rest /\
    forall i, 0 <= i -> Z.testbit w i = (i =? 9).
Proof.
  assert (H1 : cpu_is_omap24xx omap3630 || cpu_is_omap34xx omap3630 = true)
    by reflexivity.
  assert (H2 : 0 <= 1 < 32) by lia.
  assert (H3 : 0 <= 9 < 32) by lia.
  assert (H4 : Z.testbit
                 (peek (regs iva2_in_reset)
                    (rstctrl_reg omap3630 OMAP3430_IVA2_MOD)) 1 = true)
    by reflexivity.
  split; [exact H1 |]. split; [exact H2 |]. split; [exact H3 |].
  split; [exact H4 |].
  exact (proj2 (deassert_hardreset_status_write omap3630 iva2_prm
                  OMAP3430_IVA2_MOD 1 9 iva2_in_reset H1 H2 H3 H4)).
Defined.

(** ** Bit extraction *)

(** C5 (as the code has it): for a mask that is not zero the helper reads
    the register once and returns the masked value shifted down by the index
    of the lowest set bit of the mask. *)
Theorem read_mod_bits_shift_nonzero_mask cfg domain idx mask s :
  0 < mask ->
  exists n,
    0 <= n /\
    Z.testbit mask n = true /\
    (forall j, 0 <= j < n -> Z.testbit mask j = false) /\
    omap2_prm_read_mod_bits_shift cfg domain idx mask s =
      Ret (Z.shiftr (Z.land (peek (regs s) (prm_reg cfg domain idx)) mask) n)
          (Bus (regs s) (trace s ++ [Rd (prm_reg cfg domain idx)])).
Proof.
  intros Hmask. destruct mask as [| p | p]; try lia.
  exists (lowest_set_bit p).
  split; [apply lowest_set_bit_nonneg |].
  split; [apply lowest_set_bit_set |].
  split; [apply lowest_set_bit_least |].
  reflexivity.
Qed.

Lemma read_mod_bits_shift_nonzero_mask_witness :
  0 < 0xf0 /\
  exists n,
    0 <= n /\
    Z.testbit 0xf0 n = true /\
    (forall j, 0 <= j < n -> Z.testbit 0xf0 j = false) /\
    omap2_prm_read_mod_bits_shift omap3630 OMAP3430_IVA2_MOD 0x58 0xf0
      iva2_in_reset =
      Ret (Z.shiftr
             (Z.land (peek (regs iva2_in_reset)
                        (prm_reg omap3630 OMAP3430_IVA2_MOD 0x58)) 0xf0) n)
          (Bus (regs iva2_in_reset)
               (trace iva2_in_reset ++
                [Rd (prm_reg omap3630 OMAP3430_IVA2_MOD 0x58)])).
Proof.
  assert (H1 : 0 < 0xf0) by lia.
  split; [exact H1 |].
  exact (read_mod_bits_shift_nonzero_mask omap3630 OMAP3430_IVA2_MOD 0x58 0xf0
           iva2_in_reset H1).
Defined.

(** C5 (as stated) fails: with a zero mask the helper is not guarded; it
    reads the register and then evaluates [__ffs(0)], which is undefined. *)
Lemma read_mod_bits_shift_zero_mask_unguarded :
  omap2_prm_read_mod_bits_shift omap3630 CORE_MOD 0x50 0 iva2_in_reset =
    Undefined /\
  ~ zero_mask_guarded omap3630 CORE_MOD 0x50 iva2_in_reset.
Proof.
  assert (H : omap2_prm_read_mod_bits_shift omap3630 CORE_MOD 0x50 0
                iva2_in_reset = Undefined) by reflexivity.
  split; [exact H |].
  unfold zero_mask_guarded. rewrite H. intros [[s' Hs] | Hb]; discriminate.
Qed.

(** The spec's example: a contiguous four-bit field. *)
Example read_mod_bits_shift_field :
  exists s',
    omap2_prm_read_mod_bits_shift omap3630 CORE_MOD 0x50 0xf0
      (Bus (fun _ => 0x5a7) []) = Ret 0xa s'.
Proof. eexists. reflexivity. Qed.

(** ** PRM VP *)

Lemma land_nonzero_bit a b :
  0 <= a ->
  Z.land a b <> 0 <->
  exists i, 0 <= i /\ Z.testbit b i = true /\ Z.testbit a i = true.
Proof.
  intros Ha. split.
  - intros Hne.
    assert (Hpos : 0 < Z.land a b).
    { assert (0 <= Z.land a b) by (apply Z.land_nonneg; left; exact Ha). lia. }
    exists (Z.log2 (Z.land a b)).
    pose proof (Z.bit_log2 _ Hpos) as Hbit. rewrite Z.land_spec in Hbit.
    apply andb_true_iff in Hbit. destruct Hbit as [H1 H2].
    split; [apply Z.log2_nonneg | split; assumption].
  - intros (i & Hi & Hb & Hab) Hz.
    assert (Hbit : Z.testbit (Z.land a b) i = true)
      by (rewrite Z.land_spec, Hb, Hab; reflexivity).
    rewrite Hz, Z.bits_0 in Hbit. discriminate.
Qed.

Lemma irq_entry_run cfg irq_id irq s :
  0 <= irq_id ->
  omap3_prm_irqs cfg !! Z.to_nat irq_id = Some irq ->
  irq_entry cfg irq_id s = Ret irq s.
Proof.
  intros Hid Hirq. unfold irq_entry.
  replace (irq_id <? 0) with false by (symmetry; apply Z.ltb_ge; lia).
  rewrite Hirq. reflexivity.
Qed.

Lemma abb_check_txdone_run cfg irq_id irq s :
  0 <= irq_id ->
  omap3_prm_irqs cfg !! Z.to_nat irq_id = Some irq ->
  omap36xx_prm_abb_check_txdone cfg irq_id s =
  Ret (Z.land (peek (regs s) (irqstatus_reg cfg)) (abb_tranxdone_status irq))
      (Bus (regs s) (trace s ++ [Rd (irqstatus_reg cfg)])).
Proof.
  intros Hid Hirq.
  unfold omap36xx_prm_abb_check_txdone, mbind, io_bind,
    omap2_prm_read_mod_reg, __raw_readl.
  cbn beta iota. rewrite (irq_entry_run _ _ _ _ Hid Hirq). reflexivity.
Qed.

Lemma core_rail_entry cfg :
  omap3_prm_irqs cfg !! OMAP3_PRM_IRQ_VDD_CORE_ID =
  Some {| vp_tranxdone_status := OMAP3430_VP2_TRANXDONE_ST_MASK cfg;
          abb_tranxdone_status := 0 |}.
Proof. reflexivity. Qed.

(** C7: for a rail of the table, [omap3_prm_vp_check_txdone] returns a
    non-zero value exactly when the rail's VP mask and PRM_IRQSTATUS_MPU have
    a set bit in common; on a write-one-to-clear status register,
    [omap3_prm_vp_clear_txdone] followed at once by the check returns 0. *)
Theorem vp_txdone_check_clear cfg hw irq_id irq s :
  0 <= irq_id ->
  omap3_prm_irqs cfg !! Z.to_nat irq_id = Some irq ->
  (exists v,
     omap3_prm_vp_check_txdone cfg irq_id s =
       Ret v (Bus (regs s) (trace s ++ [Rd (irqstatus_reg cfg)])) /\
     (v <> 0 <->
      exists i, 0 <= i /\
        Z.testbit (vp_tranxdone_status irq) i = true /\
        Z.testbit (peek (regs s) (irqstatus_reg cfg)) i = true)) /\
  (kind_of hw (irqstatus_reg cfg) = WriteOneToClear ->
   exists s',
     (omap3_prm_vp_clear_txdone cfg hw irq_id;;
      omap3_prm_vp_check_txdone cfg irq_id) s = Ret 0 s').
Proof.
  intros Hid Hirq. split.
  - eexists. split.
    + unfold omap3_prm_vp_check_txdone, mbind, io_bind,
        omap2_prm_read_mod_reg, __raw_readl.
      cbn beta iota. rewrite (irq_entry_run _ _ _ _ Hid Hirq). reflexivity.
    + apply land_nonzero_bit. apply peek_range.
  - intros Hkind.
    unfold omap3_prm_vp_clear_txdone, omap3_prm_vp_check_txdone, mbind, io_bind.
    rewrite (irq_entry_run _ _ _ _ Hid Hirq).
    unfold omap2_prm_write_mod_reg, __raw_writel, omap2_prm_read_mod_reg,
      __raw_readl.
    cbn beta iota. rewrite (irq_entry_run _ _ _ _ Hid Hirq).
    unfold mret, io_ret. cbn [regs trace].
    fold (irqstatus_reg cfg). eexists. f_equal.
    unfold bus_write. rewrite Hkind. unfold peek at 1, poke.
    rewrite Z.eqb_refl. rewrite u32_id.
    + rewrite <- Z.land_assoc.
      replace (Z.land (Z.lnot (vp_tranxdone_status irq)) (vp_tranxdone_status irq))
        with 0; [apply Z.land_0_r |].
      symmetry. rewrite Z.land_comm. apply Z.land_lnot_diag.
    + apply land_range, peek_range.
Qed.

Lemma vp_txdone_check_clear_witness :
  0 <= 0 /\
  omap3_prm_irqs omap3630 !! Z.to_nat 0 =
    Some {| vp_tranxdone_status := 2 ^ 15; abb_tranxdone_status := 2 ^ 26 |} /\
  kind_of iva2_prm (irqstatus_reg omap3630) = WriteOneToClear /\
  (exists v,
     omap3_prm_vp_check_txdone omap3630 0 iva2_in_reset =
       Ret v (Bus (regs iva2_in_reset)
                  (trace iva2_in_reset ++ [Rd (irqstatus_reg omap3630)])) /\
     (v <> 0 <->
      exists i, 0 <= i /\
        Z.testbit (2 ^ 15) i = true /\
        Z.testbit (peek (regs iva2_in_reset) (irqstatus_reg omap3630)) i = true)) /\
  exists s',
    (omap3_prm_vp_clear_txdone omap3630 iva2_prm 0;;
     omap3_prm_vp_check_txdone omap3630 0) iva2_in_reset = Ret 0 s'.
Proof.
  assert (H1 : 0 <= 0) by lia.
  assert (H2 : omap3_prm_irqs omap3630 !! Z.to_nat 0 =
               Some {| vp_tranxdone_status := 2 ^ 15;
                       abb_tranxdone_status := 2 ^ 26 |}) by reflexivity.
  assert (H3 : kind_of iva2_prm (irqstatus_reg omap3630) = WriteOneToClear)
    by reflexivity.
  split; [exact H1 |]. split; [exact H2 |]. split; [exact H3 |].
  destruct (vp_txdone_check_clear omap3630 iva2_prm 0 _ iva2_in_reset H1 H2)
    as [Hcheck Hclear].
  split; [exact Hcheck | exact (Hclear H3)].
Defined.

(** C9: for a rail of the table whose ABB mask is zero,
    [omap36xx_prm_abb_check_txdone] returns 0 whatever PRM_IRQSTATUS_MPU
    holds. *)
Theorem abb_check_txdone_no_abb cfg irq_id irq s :
  0 <= irq_id ->
  omap3_prm_irqs cfg !! Z.to_nat irq_id = Some irq ->
  abb_tranxdone_status irq = 0 ->
  omap36xx_prm_abb_check_txdone cfg irq_id s =
  Ret 0 (Bus (regs s) (trace s ++ [Rd (irqstatus_reg cfg)])).
Proof.
  intros Hid Hirq Habb.
  rewrite (abb_check_txdone_run _ _ _ _ Hid Hirq), Habb, Z.land_0_r.
  reflexivity.
Qed.

Lemma abb_check_txdone_no_abb_witness :
  0 <= Z.of_nat OMAP3_PRM_IRQ_VDD_CORE_ID /\
  omap3_prm_irqs omap3630 !! Z.to_nat (Z.of_nat OMAP3_PRM_IRQ_VDD_CORE_ID) =
    Some {| vp_tranxdone_status := 2 ^ 21; abb_tranxdone_status := 0 |} /\
  abb_tranxdone_status
    {| vp_tranxdone_status := 2 ^ 21; abb_tranxdone_status := 0 |} = 0 /\
  omap36xx_prm_abb_check_txdone omap3630 (Z.of_nat OMAP3_PRM_IRQ_VDD_CORE_ID)
    iva2_in_reset =
  Ret 0 (Bus (regs iva2_in_reset)
             (trace iva2_in_reset ++ [Rd (irqstatus_reg omap3630)])).
Proof.
  assert (H1 : 0 <= Z.of_nat OMAP3_PRM_IRQ_VDD_CORE_ID) by (vm_compute; discriminate).
  assert (H2 : omap3_prm_irqs omap3630
                 !! Z.to_nat (Z.of_nat OMAP3_PRM_IRQ_VDD_CORE_ID) =
               Some {| vp_tranxdone_status := 2 ^ 21;
                       abb_tranxdone_status := 0 |}) by reflexivity.
  assert (H3 : abb_tranxdone_status
                 {| vp_tranxdone_status := 2 ^ 21; abb_tranxdone_status := 0 |}
               = 0) by reflexivity.
  split; [exact H1 |]. split; [exact H2 |]. split; [exact H3 |].
  exact (abb_check_txdone_no_abb omap3630
           (Z.of_nat OMAP3_PRM_IRQ_VDD_CORE_ID) _ iva2_in_reset H1 H2 H3).
Defined.

(** On every platform the core rail is such a rail, and no other index
    outside the table's two entries is a rail at all. *)
Lemma abb_check_txdone_core cfg s :
  omap36xx_prm_abb_check_txdone cfg (Z.of_nat OMAP3_PRM_IRQ_VDD_CORE_ID) s =
  Ret 0 (Bus (regs s) (trace s ++ [Rd (irqstatus_reg cfg)])).
Proof.
  rewrite (abb_check_txdone_run cfg (Z.of_nat OMAP3_PRM_IRQ_VDD_CORE_ID) _ s
             (Nat2Z.is_nonneg _) (core_rail_entry cfg)).
  cbn [abb_tranxdone_status]. rewrite Z.land_0_r. reflexivity.
Qed.

Lemma irq_table_length cfg : length (omap3_prm_irqs cfg) = 2%nat.
Proof. reflexivity. Qed.

(** ** Multi-base router *)

Lemma decode_selector sel off :
  0 <= sel < 4 -> 0 <= off < 2 ^ 13 ->
  u32 (Z.shiftr (Z.abs (Z.lor (Z.shiftl sel BASE_ID_SHIFT) off)) BASE_ID_SHIFT)
  = sel.
Proof.
  intros Hsel Hoff. unfold BASE_ID_SHIFT.
  assert (Hnn : 0 <= Z.lor (Z.shiftl sel 13) off).
  { apply Z.lor_nonneg. split; [apply Z.shiftl_nonneg |]; lia. }
  rewrite Z.abs_eq by exact Hnn.
  rewrite Z.shiftr_lor, Z.shiftr_shiftl_l, Z.sub_diag, Z.shiftl_0_r by lia.
  rewrite (Z.shiftr_div_pow2 off), Z.div_small, Z.lor_0_r by lia.
  apply u32_id. lia.
Qed.

Lemma decode_module sel off :
  0 <= sel -> 0 <= off < 2 ^ 13 ->
  s16 (Z.land (Z.lor (Z.shiftl sel BASE_ID_SHIFT) off) MOD_MASK) = off.
Proof.
  intros Hsel Hoff. unfold BASE_ID_SHIFT, MOD_MASK.
  change 0x1FFF with (Z.ones 13).
  rewrite Z.land_lor_distr_l.
  rewrite (Z.land_ones (Z.shiftl sel 13)), Z.shiftl_mul_pow2, Z.mod_mul by lia.
  rewrite Z.lor_0_l, Z.land_ones, Z.mod_small by lia.
  unfold s16, u16. rewrite Z.land_ones, Z.mod_small by lia.
  replace (off <? 2 ^ 15) with true by (symmetry; apply Z.ltb_lt; lia).
  reflexivity.
Qed.

(** C8: for an encoded module, made of a selector in two bits above a module
    offset in thirteen bits, the router makes one raw access at address
    base + offset + idx, where base is the region the selector names: the CM
    region for 0, the PRM region for 1, the second CM region for 3.  The read
    returns the content of that register and the write writes the value to
    it; a region whose base is null stops the access in [BUG_ON].  For the
    remaining selector the read returns 0 and the write does nothing;
    neither touches the bus. *)
Theorem cm_router_dispatch cfg hw sel off idx val s :
  0 <= sel < 4 ->
  0 <= off < 2 ^ 13 ->
  let module := Z.lor (Z.shiftl sel BASE_ID_SHIFT) off in
  let region :=
    if sel =? DEFAULT_BASE then Some (cm_base cfg)
    else if sel =? PRM_BASE then Some (prm_base cfg)
    else if sel =? CM2_BASE then Some (cm2_base cfg)
    else None in
  cm_read_mod_reg cfg module idx s =
    match region with
    | Some base =>
        if base =? 0 then Bug
        else Ret (peek (regs s) (base + off + idx))
                 (Bus (regs s) (trace s ++ [Rd (base + off + idx)]))
    | None => Ret 0 s
    end /\
  cm_write_mod_reg cfg hw val module idx s =
    match region with
    | Some base =>
        if base =? 0 then Bug
        else Ret tt (Bus (bus_write hw (base + off + idx) val (regs s))
                         (trace s ++ [Wr (base + off + idx) val]))
    | None => Ret tt s
    end.
Proof.
  intros Hsel Hoff module region.
  unfold cm_read_mod_reg, cm_write_mod_reg. cbn zeta. unfold module, region.
  rewrite decode_selector, decode_module by lia.
  unfold __omap_prcm_read, __omap_prcm_write, __raw_readl, __raw_writel, BUG.
  assert (Hcases : sel = 0 \/ sel = 1 \/ sel = 2 \/ sel = 3) by lia.
  destruct Hcases as [-> | [-> | [-> | ->]]];
    cbn [Z.eqb Pos.eqb DEFAULT_BASE PRM_BASE CM2_BASE];
    try (split; reflexivity).
  - destruct (cm_base cfg =? 0); split; reflexivity.
  - destruct (prm_base cfg =? 0); split; reflexivity.
  - destruct (cm2_base cfg =? 0); split; reflexivity.
Qed.

Lemma cm_router_dispatch_witness :
  0 <= PRM_BASE < 4 /\
  0 <= 0x200 < 2 ^ 13 /\
  cm_read_mod_reg omap3630 0x2200 0x50 iva2_in_reset =
    Ret (peek (regs iva2_in_reset) (prm_base omap3630 + 0x200 + 0x50))
        (Bus (regs iva2_in_reset)
             (trace iva2_in_reset ++ [Rd (prm_base omap3630 + 0x200 + 0x50)])) /\
  cm_write_mod_reg omap3630 iva2_prm 0x4 0x2200 0x50 iva2_in_reset =
    Ret tt
        (Bus (bus_write iva2_prm (prm_base omap3630 + 0x200 + 0x50) 0x4
                (regs iva2_in_reset))
             (trace iva2_in_reset ++
              [Wr (prm_base omap3630 + 0x200 + 0x50) 0x4])).
Proof.
  assert (H1 : 0 <= PRM_BASE < 4) by (unfold PRM_BASE; lia).
  assert (H2 : 0 <= 0x200 < 2 ^ 13) by lia.
  split; [exact H1 |]. split; [exact H2 |].
  exact (cm_router_dispatch omap3630 iva2_prm PRM_BASE 0x200 0x50 0x4
           iva2_in_reset H1 H2).
Defined.

(** The same holds for every [s16] argument, encoded or not, whose selector
    [abs(module) >> 13] is none of the three known bases. *)
Lemma cm_router_unknown_base cfg hw module idx val s :
  - 2 ^ 15 <= module < 2 ^ 15 ->
  Z.shiftr (Z.abs module) BASE_ID_SHIFT <> DEFAULT_BASE ->
  Z.shiftr (Z.abs module) BASE_ID_SHIFT <> PRM_BASE ->
  Z.shiftr (Z.abs module) BASE_ID_SHIFT <> CM2_BASE ->
  cm_read_mod_reg cfg module idx s = Ret 0 s /\
  cm_write_mod_reg cfg hw val module idx s = Ret tt s.
Proof.
  intros Hm H0 H1 H3. unfold cm_read_mod_reg, cm_write_mod_reg. cbn zeta.
  assert (Hb : 0 <= Z.shiftr (Z.abs module) BASE_ID_SHIFT < 2 ^ 32).
  { unfold BASE_ID_SHIFT. rewrite Z.shiftr_div_pow2 by lia. split.
    - apply Z.div_pos; lia.
    - apply Z.div_lt_upper_bound; lia. }
  rewrite (u32_id _ Hb).
  destruct (Z.eqb_spec (Z.shiftr (Z.abs module) BASE_ID_SHIFT) PRM_BASE);
    [contradiction |].
  destruct (Z.eqb_spec (Z.shiftr (Z.abs module) BASE_ID_SHIFT) CM2_BASE);
    [contradiction |].
  destruct (Z.eqb_spec (Z.shiftr (Z.abs module) BASE_ID_SHIFT) DEFAULT_BASE);
    [contradiction |].
  split; reflexivity.
Qed.

(** For an arbitrary [s16] argument the selector is [abs(module)] divided by
    [2 ^ 13] and the offset is [module] modulo [2 ^ 13]. *)
Lemma cm_router_decode cfg hw module idx val s :
  - 2 ^ 15 <= module < 2 ^ 15 ->
  let sel := Z.abs module / 2 ^ 13 in
  let off := module mod 2 ^ 13 in
  cm_read_mod_reg cfg module idx s =
    (if sel =? PRM_BASE then __omap_prcm_read (prm_base cfg) off idx s
     else if sel =? CM2_BASE then __omap_prcm_read (cm2_base cfg) off idx s
     else if sel =? DEFAULT_BASE then __omap_prcm_read (cm_base cfg) off idx s
     else Ret 0 s) /\
  cm_write_mod_reg cfg hw val module idx s =
    (if sel =? PRM_BASE then __omap_prcm_write hw val (prm_base cfg) off idx s
     else if sel =? CM2_BASE then __omap_prcm_write hw val (cm2_base cfg) off idx s
     else if sel =? DEFAULT_BASE then __omap_prcm_write hw val (cm_base cfg) off idx s
     else Ret tt s).
Proof.
  intros Hm sel off. unfold cm_read_mod_reg, cm_write_mod_reg. cbn zeta.
  assert (Hsel : u32 (Z.shiftr (Z.abs module) BASE_ID_SHIFT) = sel).
  { unfold BASE_ID_SHIFT, sel. rewrite Z.shiftr_div_pow2 by lia.
    apply u32_id. split.
    - apply Z.div_pos; lia.
    - apply Z.div_lt_upper_bound; lia. }
  assert (Hoff : s16 (Z.land module MOD_MASK) = off).
  { unfold MOD_MASK, off. change 0x1FFF with (Z.ones 13).
    rewrite Z.land_ones by lia.
    pose proof (Z.mod_pos_bound module (2 ^ 13) ltac:(lia)) as Hb.
    unfold s16, u16. rewrite Z.land_ones, Z.mod_small by lia.
    replace (module mod 2 ^ 13 <? 2 ^ 15) with true
      by (symmetry; apply Z.ltb_lt; lia).
    reflexivity. }
  rewrite Hsel, Hoff.
  destruct (sel =? PRM_BASE), (sel =? CM2_BASE), (sel =? DEFAULT_BASE);
    split; reflexivity.
Qed.

(** A negative module offset, such as that of IVA2, is not an encoded
    module: its selector is taken from its absolute value and its offset from
    the low bits of its two's complement. *)
Example cm_router_negative_module :
  cm_read_mod_reg omap3630 OMAP3430_IVA2_MOD 0x20 iva2_running =
  __omap_prcm_read (cm_base omap3630) 0x1800 0x20 iva2_running.
Proof. reflexivity. Qed.

(** * Further properties of the module *)

Lemma peek_testbit_high r a i : 32 <= i -> Z.testbit (peek r a) i = false.
Proof.
  intros Hi. unfold peek. rewrite u32_testbit by lia.
  replace (i <? 32) with false by (symmetry; apply Z.ltb_ge; lia).
  apply andb_false_r.
Qed.

Lemma range_testbit_high x i :
  0 <= x < 2 ^ 32 -> 32 <= i -> Z.testbit x i = false.
Proof.
  intros Hx Hi. rewrite <- (u32_id x Hx). rewrite u32_testbit by lia.
  replace (i <? 32) with false by (symmetry; apply Z.ltb_ge; lia).
  apply andb_false_r.
Qed.

Lemma u32_lor a b : u32 (Z.lor a b) = Z.lor (u32 a) (u32 b).
Proof. unfold u32. apply Z.land_lor_distr_l. Qed.

Lemma lor_range a b :
  0 <= a < 2 ^ 32 -> 0 <= b < 2 ^ 32 -> 0 <= Z.lor a b < 2 ^ 32.
Proof.
  intros Ha Hb. rewrite <- (u32_id a Ha), <- (u32_id b Hb), <- u32_lor.
  apply u32_range.
Qed.

Lemma bus_write_storage hw a v r :
  kind_of hw a = Storage -> peek (bus_write hw a v r) a = u32 v.
Proof.
  intros Hk. unfold bus_write. rewrite Hk. unfold peek, poke.
  rewrite Z.eqb_refl. reflexivity.
Qed.

Lemma bus_write_w1c hw a v r :
  kind_of hw a = WriteOneToClear ->
  peek (bus_write hw a v r) a = Z.land (peek r a) (Z.lnot v).
Proof.
  intros Hk. unfold bus_write. rewrite Hk. unfold peek at 1, poke.
  rewrite Z.eqb_refl. apply u32_id, land_range, peek_range.
Qed.

Lemma bus_write_other hw a v r b : b <> a -> bus_write hw a v r b = r b.
Proof.
  intros Hb. unfold bus_write, poke.
  destruct (kind_of hw a); destruct (Z.eqb_spec b a); congruence.
Qed.

(** The value a read-modify-write computes, bit by bit. *)
Lemma rmw_value_testbit old mask bits i :
  0 <= old < 2 ^ 32 -> 0 <= i ->
  Z.testbit (Z.lor (Z.land old (not32 mask)) bits) i =
  Z.testbit bits i || (Z.testbit old i && negb (Z.testbit mask i)).
Proof.
  intros Hold Hi. rewrite Z.lor_spec, Z.land_spec, not32_testbit by lia.
  destruct (Z.ltb_spec i 32) as [Hlt | Hge].
  - rewrite andb_true_r. apply orb_comm.
  - rewrite (range_testbit_high old i Hold Hge). cbn [andb orb].
    rewrite orb_false_r. reflexivity.
Qed.

Lemma rmw_value_range old mask bits :
  0 <= old < 2 ^ 32 -> 0 <= bits < 2 ^ 32 ->
  0 <= Z.lor (Z.land old (not32 mask)) bits < 2 ^ 32.
Proof. intros Hold Hbits. apply lor_range; [apply land_range |]; assumption. Qed.

(** X1: a read-modify-write of a storage register does not require [bits]
    to lie inside [mask]: afterwards a bit of the register is set exactly
    when it is set in [bits], or was set before and lies outside [mask]; the
    call returns the new content and touches no other register. *)
Theorem rmw_mod_reg_bits_unmasked cfg hw mask bits module idx s :
  0 <= bits < 2 ^ 32 ->
  kind_of hw (prm_reg cfg module idx) = Storage ->
  exists v s',
    omap2_prm_rmw_mod_reg_bits cfg hw mask bits module idx s = Ret v s' /\
    peek (regs s') (prm_reg cfg module idx) = v /\
    (forall i, 0 <= i ->
       Z.testbit v i =
       Z.testbit bits i ||
       (Z.testbit (peek (regs s) (prm_reg cfg module idx)) i &&
        negb (Z.testbit mask i))) /\
    (forall b, b <> prm_reg cfg module idx -> regs s' b = regs s b).
Proof.
  intros Hbits Hkind. rewrite rmw_run. cbn zeta.
  eexists. eexists. split; [reflexivity |]. cbn [regs trace].
  split; [| split].
  - rewrite bus_write_storage by exact Hkind.
    apply u32_id, rmw_value_range; [apply peek_range | exact Hbits].
  - intros i Hi. apply rmw_value_testbit; [apply peek_range | exact Hi].
  - intros b Hb. apply bus_write_other. exact Hb.
Qed.

Lemma rmw_mod_reg_bits_unmasked_witness :
  0 <= 0x9 < 2 ^ 32 /\
  kind_of iva2_prm (prm_reg omap3630 OMAP3430_IVA2_MOD 0x50) = Storage /\
  exists v s',
    omap2_prm_rmw_mod_reg_bits omap3630 iva2_prm 0x3 0x9 OMAP3430_IVA2_MOD 0x50
      iva2_in_reset = Ret v s' /\
    peek (regs s') (prm_reg omap3630 OMAP3430_IVA2_MOD 0x50) = v /\
    (forall i, 0 <= i ->
       Z.testbit v i =
       Z.testbit 0x9 i ||
       (Z.testbit (peek (regs iva2_in_reset)
                     (prm_reg omap3630 OMAP3430_IVA2_MOD 0x50)) i &&
        negb (Z.testbit 0x3 i))) /\
    (forall b, b <> prm_reg omap3630 OMAP3430_IVA2_MOD 0x50 ->
       regs s' b = regs iva2_in_reset b).
Proof.
  assert (H1 : 0 <= 0x9 < 2 ^ 32) by lia.
  assert (H2 : kind_of iva2_prm (prm_reg omap3630 OMAP3430_IVA2_MOD 0x50) = Storage)
    by reflexivity.
  split; [exact H1 |]. split; [exact H2 |].
  exact (rmw_mod_reg_bits_unmasked omap3630 iva2_prm 0x3 0x9 OMAP3430_IVA2_MOD
           0x50 iva2_in_reset H1 H2).
Defined.

(** X2: [omap2_prm_set_mod_reg_bits] on a storage register sets the bits of
    [bits] and leaves every other bit and every other register as it was;
    it returns the new content. *)
Theorem set_mod_reg_bits_sets cfg hw bits module idx s :
  0 <= bits < 2 ^ 32 ->
  kind_of hw (prm_reg cfg module idx) = Storage ->
  exists v s',
    omap2_prm_set_mod_reg_bits cfg hw bits module idx s = Ret v s' /\
    peek (regs s') (prm_reg cfg module idx) = v /\
    (forall i, 0 <= i ->
       Z.testbit v i =
       Z.testbit bits i || Z.testbit (peek (regs s) (prm_reg cfg module idx)) i) /\
    (forall b, b <> prm_reg cfg module idx -> regs s' b = regs s b).
Proof.
  intros Hbits Hkind. unfold omap2_prm_set_mod_reg_bits. rewrite rmw_run.
  cbn zeta. eexists. eexists. split; [reflexivity |]. cbn [regs trace].
  split; [| split].
  - rewrite bus_write_storage by exact Hkind.
    apply u32_id, rmw_value_range; [apply peek_range | exact Hbits].
  - intros i Hi. rewrite rmw_value_testbit by (apply peek_range || exact Hi).
    destruct (Z.testbit bits i), (Z.testbit (peek _ _) i); reflexivity.
  - intros b Hb. apply bus_write_other. exact Hb.
Qed.

Lemma set_mod_reg_bits_sets_witness :
  0 <= 0x18 < 2 ^ 32 /\
  kind_of iva2_prm (prm_reg omap3630 OMAP3430_IVA2_MOD 0x50) = Storage /\
  exists v s',
    omap2_prm_set_mod_reg_bits omap3630 iva2_prm 0x18 OMAP3430_IVA2_MOD 0x50
      iva2_in_reset = Ret v s' /\
    peek (regs s') (prm_reg omap3630 OMAP3430_IVA2_MOD 0x50) = v /\
    (forall i, 0 <= i ->
       Z.testbit v i =
       Z.testbit 0x18 i ||
       Z.testbit (peek (regs iva2_in_reset)
                    (prm_reg omap3630 OMAP3430_IVA2_MOD 0x50)) i) /\
    (forall b, b <> prm_reg omap3630 OMAP3430_IVA2_MOD 0x50 ->
       regs s' b = regs iva2_in_reset b).
Proof.
  assert (H1 : 0 <= 0x18 < 2 ^ 32) by lia.
  assert (H2 : kind_of iva2_prm (prm_reg omap3630 OMAP3430_IVA2_MOD 0x50) = Storage)
    by reflexivity.
  split; [exact H1 |]. split; [exact H2 |].
  exact (set_mod_reg_bits_sets omap3630 iva2_prm 0x18 OMAP3430_IVA2_MOD 0x50
           iva2_in_reset H1 H2).
Defined.

(** X3: [omap2_prm_clear_mod_reg_bits] on a storage register clears the bits
    of [bits] and leaves every other bit and every other register as it was;
    it returns the new content. *)
Theorem clear_mod_reg_bits_clears cfg hw bits module idx s :
  kind_of hw (prm_reg cfg module idx) = Storage ->
  exists v s',
    omap2_prm_clear_mod_reg_bits cfg hw bits module idx s = Ret v s' /\
    peek (regs s') (prm_reg cfg module idx) = v /\
    (forall i, 0 <= i ->
       Z.testbit v i =
       Z.testbit (peek (regs s) (prm_reg cfg module idx)) i &&
       negb (Z.testbit bits i)) /\
    (forall b, b <> prm_reg cfg module idx -> regs s' b = regs s b).
Proof.
  intros Hkind. unfold omap2_prm_clear_mod_reg_bits. rewrite rmw_run.
  cbn zeta. eexists. eexists. split; [reflexivity |]. cbn [regs trace].
  split; [| split].
  - rewrite bus_write_storage by exact Hkind.
    apply u32_id, rmw_value_range; [apply peek_range | lia].
  - intros i Hi. rewrite rmw_value_testbit by (apply peek_range || exact Hi).
    rewrite Z.bits_0. reflexivity.
  - intros b Hb. apply bus_write_other. exact Hb.
Qed.

Lemma clear_mod_reg_bits_clears_witness :
  kind_of iva2_prm (prm_reg omap3630 OMAP3430_IVA2_MOD 0x50) = Storage /\
  exists v s',
    omap2_prm_clear_mod_reg_bits omap3630 iva2_prm 0x6 OMAP3430_IVA2_MOD 0x50
      iva2_in_reset = Ret v s' /\
    peek (regs s') (prm_reg omap3630 OMAP3430_IVA2_MOD 0x50) = v /\
    (forall i, 0 <= i ->
       Z.testbit v i =
       Z.testbit (peek (regs iva2_in_reset)
                    (prm_reg omap3630 OMAP3430_IVA2_MOD 0x50)) i &&
       negb (Z.testbit 0x6 i)) /\
    (forall b, b <> prm_reg omap3630 OMAP3430_IVA2_MOD 0x50 ->
       regs s' b = regs iva2_in_reset b).
Proof.
  assert (H1 : kind_of iva2_prm (prm_reg omap3630 OMAP3430_IVA2_MOD 0x50) = Storage)
    by reflexivity.
  split; [exact H1 |].
  exact (clear_mod_reg_bits_clears omap3630 iva2_prm 0x6 OMAP3430_IVA2_MOD 0x50
           iva2_in_reset H1).
Defined.

(** X4: a read-modify-write is idempotent on a storage register: made twice
    in a row it returns the same value as made once and leaves the same
    register contents. *)
Theorem rmw_mod_reg_bits_idempotent cfg hw mask bits module idx s :
  0 <= bits < 2 ^ 32 ->
  kind_of hw (prm_reg cfg module idx) = Storage ->
  exists v s1 s2,
    omap2_prm_rmw_mod_reg_bits cfg hw mask bits module idx s = Ret v s1 /\
    (omap2_prm_rmw_mod_reg_bits cfg hw mask bits module idx;;
     omap2_prm_rmw_mod_reg_bits cfg hw mask bits module idx) s = Ret v s2 /\
    forall b, regs s2 b = regs s1 b.
Proof.
  intros Hbits Hkind. unfold mbind, io_bind. rewrite rmw_run.
  cbn beta iota zeta. rewrite rmw_run. cbn zeta. cbn [regs trace].
  set (a := prm_reg cfg module idx) in *.
  set (v := Z.lor (Z.land (peek (regs s) a) (not32 mask)) bits).
  assert (Hv : 0 <= v < 2 ^ 32)
    by (apply rmw_value_range; [apply peek_range | exact Hbits]).
  assert (Hback : peek (bus_write hw a v (regs s)) a = v)
    by (rewrite bus_write_storage by exact Hkind; apply u32_id, Hv).
  rewrite Hback.
  assert (Hagain : Z.lor (Z.land v (not32 mask)) bits = v).
  { apply Z.bits_inj'. intros i Hi.
    rewrite (rmw_value_testbit v mask bits i Hv Hi). unfold v at 1 2.
    rewrite (rmw_value_testbit _ mask bits i (peek_range _ _) Hi).
    destruct (Z.testbit bits i), (Z.testbit (peek (regs s) a) i),
      (Z.testbit mask i); reflexivity. }
  rewrite Hagain.
  eexists. eexists. eexists. split; [reflexivity |]. split; [reflexivity |].
  cbn [regs]. intros b. unfold bus_write. rewrite Hkind. unfold poke.
  destruct (b =? a); reflexivity.
Qed.

Lemma rmw_mod_reg_bits_idempotent_witness :
  0 <= 0x5 < 2 ^ 32 /\
  kind_of iva2_prm (prm_reg omap3630 OMAP3430_IVA2_MOD 0x50) = Storage /\
  exists v s1 s2,
    omap2_prm_rmw_mod_reg_bits omap3630 iva2_prm 0x3 0x5 OMAP3430_IVA2_MOD 0x50
      iva2_in_reset = Ret v s1 /\
    (omap2_prm_rmw_mod_reg_bits omap3630 iva2_prm 0x3 0x5 OMAP3430_IVA2_MOD 0x50;;
     omap2_prm_rmw_mod_reg_bits omap3630 iva2_prm 0x3 0x5 OMAP3430_IVA2_MOD 0x50)
      iva2_in_reset = Ret v s2 /\
    forall b, regs s2 b = regs s1 b.
Proof.
  assert (H1 : 0 <= 0x5 < 2 ^ 32) by lia.
  assert (H2 : kind_of iva2_prm (prm_reg omap3630 OMAP3430_IVA2_MOD 0x50) = Storage)
    by reflexivity.
  split; [exact H1 |]. split; [exact H2 |].
  exact (rmw_mod_reg_bits_idempotent omap3630 iva2_prm 0x3 0x5 OMAP3430_IVA2_MOD
           0x50 iva2_in_reset H1 H2).
Defined.

(** ** More on the hardreset controller *)

Lemma is_hardreset_asserted_run cfg prm_mod shift s :
  cpu_is_omap24xx cfg || cpu_is_omap34xx cfg = true ->
  0 <= shift < 32 ->
  omap2_prm_is_hardreset_asserted cfg prm_mod shift s =
  Ret (Z.b2z (Z.testbit (peek (regs s) (rstctrl_reg cfg prm_mod)) shift))
      (Bus (regs s) (trace s ++ [Rd (rstctrl_reg cfg prm_mod)])).
Proof.
  intros Hcpu Hs. unfold omap2_prm_is_hardreset_asserted. rewrite Hcpu.
  cbn [negb]. unfold mbind, io_bind. rewrite shl32_run by lia.
  rewrite read_bit_run by lia. cbn zeta. fold (rstctrl_reg cfg prm_mod).
  unfold mret, io_ret.
  destruct (Z.testbit (peek (regs s) (rstctrl_reg cfg prm_mod)) shift);
    reflexivity.
Qed.

Lemma assert_hardreset_run cfg hw prm_mod shift s :
  cpu_is_omap24xx cfg || cpu_is_omap34xx cfg = true ->
  0 <= shift < 32 ->
  omap2_prm_assert_hardreset cfg hw prm_mod shift s =
  let a := rstctrl_reg cfg prm_mod in
  let v := Z.lor (Z.land (peek (regs s) a) (not32 (2 ^ shift))) (2 ^ shift) in
  Ret 0 (Bus (bus_write hw a v (regs s)) (trace s ++ [Rd a; Wr a v])).
Proof.
  intros Hcpu Hs. unfold omap2_prm_assert_hardreset. rewrite Hcpu.
  cbn [negb]. unfold mbind, io_bind. rewrite shl32_run by lia.
  rewrite rmw_run. reflexivity.
Qed.

Lemma pow2_range n : 0 <= n < 32 -> 0 <= 2 ^ n < 2 ^ 32.
Proof.
  intros Hn. split; [apply Z.pow_nonneg; lia | apply Z.pow_lt_mono_r; lia].
Qed.

Lemma deassert_hardreset_guard_run cfg hw prm_mod rst_shift st_shift s :
  cpu_is_omap24xx cfg || cpu_is_omap34xx cfg = true ->
  0 <= rst_shift < 32 ->
  0 <= st_shift < 32 ->
  Z.testbit (peek (regs s) (rstctrl_reg cfg prm_mod)) rst_shift = false ->
  omap2_prm_deassert_hardreset cfg hw prm_mod rst_shift st_shift s =
  Ret (- EEXIST) (Bus (regs s) (trace s ++ [Rd (rstctrl_reg cfg prm_mod)])).
Proof.
  intros Hcpu Hrst Hst Hbit.
  unfold omap2_prm_deassert_hardreset. rewrite Hcpu. cbn [negb].
  unfold mbind at 1 2 3, io_bind at 1 2 3.
  rewrite shl32_run by lia. rewrite shl32_run by lia.
  rewrite read_bit_run by lia. cbn zeta. fold (rstctrl_reg cfg prm_mod).
  rewrite Hbit. reflexivity.
Qed.

(** Whatever it returns, the call leaves the line deasserted. *)
Lemma deassert_hardreset_leaves_deasserted cfg hw prm_mod rst_shift st_shift s :
  cpu_is_omap24xx cfg || cpu_is_omap34xx cfg = true ->
  0 <= rst_shift < 32 ->
  0 <= st_shift < 32 ->
  kind_of hw (rstctrl_reg cfg prm_mod) = Storage ->
  exists c s1,
    omap2_prm_deassert_hardreset cfg hw prm_mod rst_shift st_shift s =
      Ret c s1 /\
    Z.testbit (peek (regs s1) (rstctrl_reg cfg prm_mod)) rst_shift = false.
Proof.
  intros Hcpu Hrst Hst Hkind.
  destruct (Z.testbit (peek (regs s) (rstctrl_reg cfg prm_mod)) rst_shift)
    eqn:Hbit.
  - rewrite deassert_hardreset_run by assumption. cbn zeta.
    assert (Hclr : forall k,
              Z.testbit
                (peek (delays hw k
                         (released cfg hw prm_mod rst_shift st_shift (regs s)))
                      (rstctrl_reg cfg prm_mod)) rst_shift = false).
    { intros k. unfold peek. rewrite delays_storage by exact Hkind.
      fold (peek (released cfg hw prm_mod rst_shift st_shift (regs s))
              (rstctrl_reg cfg prm_mod)).
      rewrite released_rstctrl by exact Hkind. apply release_value_bit. lia. }
    destruct (first_raised hw _ _ _ _); eexists; eexists;
      (split; [reflexivity | cbn [regs]; apply Hclr]).
  - rewrite deassert_hardreset_guard_run by assumption.
    eexists. eexists. split; [reflexivity | exact Hbit].
Qed.

(** X5: on a supported chip [omap2_prm_is_hardreset_asserted] returns 1 when
    the control bit of the line is set and 0 when it is clear; it reads
    RM_RSTCTRL once and writes nothing. *)
Theorem is_hardreset_asserted_reads_line cfg prm_mod shift s :
  cpu_is_omap24xx cfg || cpu_is_omap34xx cfg = true ->
  0 <= shift < 32 ->
  exists s',
    omap2_prm_is_hardreset_asserted cfg prm_mod shift s =
      Ret (if Z.testbit (peek (regs s) (rstctrl_reg cfg prm_mod)) shift
           then 1 else 0) s' /\
    regs s' = regs s /\
    trace s' = trace s ++ [Rd (rstctrl_reg cfg prm_mod)].
Proof.
  intros Hcpu Hs. rewrite is_hardreset_asserted_run by assumption.
  exists (Bus (regs s) (trace s ++ [Rd (rstctrl_reg cfg prm_mod)])).
  split; [| split; reflexivity].
  destruct (Z.testbit _ _); reflexivity.
Qed.

Lemma is_hardreset_asserted_reads_line_witness :
  cpu_is_omap24xx omap3630 || cpu_is_omap34xx omap3630 = true /\
  0 <= 2 < 32 /\
  exists s',
    omap2_prm_is_hardreset_asserted omap3630 OMAP3430_IVA2_MOD 2 iva2_in_reset =
      Ret (if Z.testbit
                (peek (regs iva2_in_reset)
                   (rstctrl_reg omap3630 OMAP3430_IVA2_MOD)) 2
           then 1 else 0) s' /\
    regs s' = regs iva2_in_reset /\
    trace s' =
      trace iva2_in_reset ++ [Rd (rstctrl_reg omap3630 OMAP3430_IVA2_MOD)].
Proof.
  assert (H1 : cpu_is_omap24xx omap3630 || cpu_is_omap34xx omap3630 = true)
    by reflexivity.
  assert (H2 : 0 <= 2 < 32) by lia.
  split; [exact H1 |]. split; [exact H2 |].
  exact (is_hardreset_asserted_reads_line omap3630 OMAP3430_IVA2_MOD 2
           iva2_in_reset H1 H2).
Defined.

(** X6: on a supported chip [omap2_prm_assert_hardreset] returns 0, sets the
    control bit of the line in RM_RSTCTRL (a storage register) and leaves
    its other bits as they were; a query made right after it returns 1. *)
Theorem assert_hardreset_asserts cfg hw prm_mod shift s :
  cpu_is_omap24xx cfg || cpu_is_omap34xx cfg = true ->
  0 <= shift < 32 ->
  kind_of hw (rstctrl_reg cfg prm_mod) = Storage ->
  (exists s',
     omap2_prm_assert_hardreset cfg hw prm_mod shift s = Ret 0 s' /\
     forall i, 0 <= i ->
       Z.testbit (peek (regs s') (rstctrl_reg cfg prm_mod)) i =
       (i =? shift) || Z.testbit (peek (regs s) (rstctrl_reg cfg prm_mod)) i) /\
  exists s'',
    (omap2_prm_assert_hardreset cfg hw prm_mod shift;;
     omap2_prm_is_hardreset_asserted cfg prm_mod shift) s = Ret 1 s''.
Proof.
  intros Hcpu Hs Hkind.
  set (a := rstctrl_reg cfg prm_mod).
  set (v := Z.lor (Z.land (peek (regs s) a) (not32 (2 ^ shift))) (2 ^ shift)).
  assert (Hv : 0 <= v < 2 ^ 32)
    by (apply rmw_value_range; [apply peek_range | apply pow2_range; lia]).
  assert (Hbits : forall i, 0 <= i ->
            Z.testbit (peek (bus_write hw a v (regs s)) a) i =
            (i =? shift) || Z.testbit (peek (regs s) a) i).
  { intros i Hi. rewrite bus_write_storage, u32_id by assumption.
    unfold v. rewrite rmw_value_testbit by (apply peek_range || exact Hi).
    destruct (Z.eqb_spec i shift) as [-> | Hne].
    - rewrite Z.pow2_bits_true by lia. reflexivity.
    - rewrite Z.pow2_bits_false by lia. cbn [orb negb].
      apply andb_true_r. }
  split.
  - rewrite assert_hardreset_run by assumption. cbn zeta.
    eexists. split; [reflexivity |]. cbn [regs]. exact Hbits.
  - unfold mbind, io_bind. rewrite assert_hardreset_run by assumption.
    cbn beta iota zeta. rewrite is_hardreset_asserted_run by assumption.
    cbn [regs trace]. fold a. fold v.
    rewrite (Hbits shift) by lia. rewrite Z.eqb_refl. cbn [orb Z.b2z].
    eexists. reflexivity.
Qed.

Lemma assert_hardreset_asserts_witness :
  cpu_is_omap24xx omap3630 || cpu_is_omap34xx omap3630 = true /\
  0 <= 1 < 32 /\
  kind_of iva2_prm (rstctrl_reg omap3630 OMAP3430_IVA2_MOD) = Storage /\
  (exists s',
     omap2_prm_assert_hardreset omap3630 iva2_prm OMAP3430_IVA2_MOD 1
       iva2_running = Ret 0 s' /\
     forall i, 0 <= i ->
       Z.testbit (peek (regs s') (rstctrl_reg omap3630 OMAP3430_IVA2_MOD)) i =
       (i =? 1) ||
       Z.testbit (peek (regs iva2_running)
                    (rstctrl_reg omap3630 OMAP3430_IVA2_MOD)) i) /\
  exists s'',
    (omap2_prm_assert_hardreset omap3630 iva2_prm OMAP3430_IVA2_MOD 1;;
     omap2_prm_is_hardreset_asserted omap3630 OMAP3430_IVA2_MOD 1)
      iva2_running = Ret 1 s''.
Proof.
  assert (H1 : cpu_is_omap24xx omap3630 || cpu_is_omap34xx omap3630 = true)
    by reflexivity.
  assert (H2 : 0 <= 1 < 32) by lia.
  assert (H3 : kind_of iva2_prm (rstctrl_reg omap3630 OMAP3430_IVA2_MOD) = Storage)
    by reflexivity.
  split; [exact H1 |]. split; [exact H2 |]. split; [exact H3 |].
  exact (assert_hardreset_asserts omap3630 iva2_prm OMAP3430_IVA2_MOD 1
           iva2_running H1 H2 H3).
Defined.

(** The shape of every run that starts with the line asserted: the two
    writes, then [n] polls and [m] delays within the budget. *)
Lemma deassert_hardreset_shape cfg hw prm_mod rst_shift st_shift s :
  cpu_is_omap24xx cfg || cpu_is_omap34xx cfg = true ->
  0 <= rst_shift < 32 ->
  0 <= st_shift < 32 ->
  Z.testbit (peek (regs s) (rstctrl_reg cfg prm_mod)) rst_shift = true ->
  exists c m n,
    omap2_prm_deassert_hardreset cfg hw prm_mod rst_shift st_shift s =
      Ret c (Bus (delays hw m
                    (released cfg hw prm_mod rst_shift st_shift (regs s)))
                 ((trace s ++
                   [Rd (rstctrl_reg cfg prm_mod);
                    Rd (rstst_reg cfg prm_mod);
                    Wr (rstst_reg cfg prm_mod) (2 ^ st_shift);
                    Rd (rstctrl_reg cfg prm_mod);
                    Wr (rstctrl_reg cfg prm_mod)
                       (release_value cfg hw prm_mod rst_shift st_shift
                          (regs s))]) ++
                  repeat (Rd (rstst_reg cfg prm_mod)) n)) /\
    (c = 0 \/ c = - EBUSY) /\
    (n <= Z.to_nat (MAX_MODULE_HARDRESET_WAIT cfg))%nat.
Proof.
  intros Hcpu Hrst Hst Hbit.
  rewrite deassert_hardreset_run by assumption. cbn zeta.
  destruct (first_raised hw _ _ _ _) as [k |] eqn:E.
  - exists 0, k, (S k). split; [reflexivity |]. split; [left; reflexivity |].
    apply first_raised_bound in E. lia.
  - eexists. eexists. eexists. split; [reflexivity |].
    split; [| apply Nat.le_refl].
    destruct (Z.of_nat _ =? _); [right | left]; reflexivity.
Qed.

(** X7: on a supported chip [omap2_prm_deassert_hardreset] always returns,
    with 0, -EBUSY or -EEXIST, after at most five register accesses and as
    many polls as the budget allows. *)
Theorem deassert_hardreset_bounded cfg hw prm_mod rst_shift st_shift s :
  cpu_is_omap24xx cfg || cpu_is_omap34xx cfg = true ->
  0 <= rst_shift < 32 ->
  0 <= st_shift < 32 ->
  exists c s',
    omap2_prm_deassert_hardreset cfg hw prm_mod rst_shift st_shift s =
      Ret c s' /\
    (c = 0 \/ c = - EBUSY \/ c = - EEXIST) /\
    (length (trace s') <=
     length (trace s) + 5 + Z.to_nat (MAX_MODULE_HARDRESET_WAIT cfg))%nat.
Proof.
  intros Hcpu Hrst Hst.
  destruct (Z.testbit (peek (regs s) (rstctrl_reg cfg prm_mod)) rst_shift)
    eqn:Hbit.
  - destruct (deassert_hardreset_shape cfg hw prm_mod rst_shift st_shift s
                Hcpu Hrst Hst Hbit) as (c & m & n & Hrun & Hc & Hn).
    rewrite Hrun. eexists. eexists. split; [reflexivity |].
    split; [tauto |]. cbn [trace].
    rewrite !length_app, repeat_length. cbn [length]. lia.
  - rewrite deassert_hardreset_guard_run by assumption.
    eexists. eexists. split; [reflexivity |].
    split; [tauto |]. cbn [trace]. rewrite length_app. cbn [length]. lia.
Qed.

Lemma deassert_hardreset_bounded_witness :
  cpu_is_omap24xx omap3630 || cpu_is_omap34xx omap3630 = true /\
  0 <= 1 < 32 /\
  0 <= 9 < 32 /\
  exists c s',
    omap2_prm_deassert_hardreset omap3630 iva2_prm OMAP3430_IVA2_MOD 1 9
      iva2_in_reset = Ret c s' /\
    (c = 0 \/ c = - EBUSY \/ c = - EEXIST) /\
    (length (trace s') <=
     length (trace iva2_in_reset) + 5 +
     Z.to_nat (MAX_MODULE_HARDRESET_WAIT omap3630))%nat.
Proof.
  assert (H1 : cpu_is_omap24xx omap3630 || cpu_is_omap34xx omap3630 = true)
    by reflexivity.
  assert (H2 : 0 <= 1 < 32) by lia.
  assert (H3 : 0 <= 9 < 32) by lia.
  split; [exact H1 |]. split; [exact H2 |]. split; [exact H3 |].
  exact (deassert_hardreset_bounded omap3630 iva2_prm OMAP3430_IVA2_MOD 1 9
           iva2_in_reset H1 H2 H3).
Defined.

(** X8: on a supported chip, for shifts below 32 and RM_RSTCTRL a storage
    register, the line is deasserted after [omap2_prm_deassert_hardreset]
    whichever of 0, -EBUSY and -EEXIST it returns: a query made right after
    it returns 0, and a second call made right after it returns -EEXIST. *)
Theorem deassert_hardreset_then_deasserted cfg hw prm_mod rst_shift st_shift s :
  cpu_is_omap24xx cfg || cpu_is_omap34xx cfg = true ->
  0 <= rst_shift < 32 ->
  0 <= st_shift < 32 ->
  kind_of hw (rstctrl_reg cfg prm_mod) = Storage ->
  (exists s',
     (omap2_prm_deassert_hardreset cfg hw prm_mod rst_shift st_shift;;
      omap2_prm_is_hardreset_asserted cfg prm_mod rst_shift) s = Ret 0 s') /\
  (exists s',
     (omap2_prm_deassert_hardreset cfg hw prm_mod rst_shift st_shift;;
      omap2_prm_deassert_hardreset cfg hw prm_mod rst_shift st_shift) s =
       Ret (- EEXIST) s').
Proof.
  intros Hcpu Hrst Hst Hkind.
  destruct (deassert_hardreset_leaves_deasserted cfg hw prm_mod rst_shift
              st_shift s Hcpu Hrst Hst Hkind) as (c & s1 & Hrun & Hclr).
  unfold mbind, io_bind. rewrite Hrun. split.
  - rewrite is_hardreset_asserted_run by assumption. rewrite Hclr.
    eexists. reflexivity.
  - rewrite deassert_hardreset_guard_run by assumption.
    eexists. reflexivity.
Qed.

Lemma deassert_hardreset_then_deasserted_witness :
  cpu_is_omap24xx omap3630 || cpu_is_omap34xx omap3630 = true /\
  0 <= 1 < 32 /\
  0 <= 9 < 32 /\
  kind_of iva2_prm (rstctrl_reg omap3630 OMAP3430_IVA2_MOD) = Storage /\
  (exists s',
     (omap2_prm_deassert_hardreset omap3630 iva2_prm OMAP3430_IVA2_MOD 1 9;;
      omap2_prm_is_hardreset_asserted omap3630 OMAP3430_IVA2_MOD 1)
       iva2_in_reset = Ret 0 s') /\
  (exists s',
     (omap2_prm_deassert_hardreset omap3630 iva2_prm OMAP3430_IVA2_MOD 1 9;;
      omap2_prm_deassert_hardreset omap3630 iva2_prm OMAP3430_IVA2_MOD 1 9)
       iva2_in_reset = Ret (- EEXIST) s').
Proof.
  assert (H1 : cpu_is_omap24xx omap3630 || cpu_is_omap34xx omap3630 = true)
    by reflexivity.
  assert (H2 : 0 <= 1 < 32) by lia.
  assert (H3 : 0 <= 9 < 32) by lia.
  assert (H4 : kind_of iva2_prm (rstctrl_reg omap3630 OMAP3430_IVA2_MOD) = Storage)
    by reflexivity.
  split; [exact H1 |]. split; [exact H2 |]. split; [exact H3 |].
  split; [exact H4 |].
  exact (deassert_hardreset_then_deasserted omap3630 iva2_prm OMAP3430_IVA2_MOD
           1 9 iva2_in_reset H1 H2 H3 H4).
Defined.

(** X9: on a supported chip, for shifts below 32 and RM_RSTCTRL a storage
    register, a deassert made right after an assert of the same line never
    returns -EEXIST: it returns 0 or -EBUSY, whatever state the line was in
    before the assert. *)
Theorem assert_then_deassert cfg hw prm_mod shift st_shift s :
  cpu_is_omap24xx cfg || cpu_is_omap34xx cfg = true ->
  0 <= shift < 32 ->
  0 <= st_shift < 32 ->
  kind_of hw (rstctrl_reg cfg prm_mod) = Storage ->
  exists c s',
    (omap2_prm_assert_hardreset cfg hw prm_mod shift;;
     omap2_prm_deassert_hardreset cfg hw prm_mod shift st_shift) s =
      Ret c s' /\
    (c = 0 \/ c = - EBUSY).
Proof.
  intros Hcpu Hs Hst Hkind. unfold mbind, io_bind.
  rewrite assert_hardreset_run by assumption. cbn beta iota zeta.
  set (a := rstctrl_reg cfg prm_mod).
  set (v := Z.lor (Z.land (peek (regs s) a) (not32 (2 ^ shift))) (2 ^ shift)).
  set (s1 := Bus (bus_write hw a v (regs s)) (trace s ++ [Rd a; Wr a v])).
  assert (Hbit : Z.testbit (peek (regs s1) (rstctrl_reg cfg prm_mod)) shift = true).
  { cbn [s1 regs]. fold a. rewrite bus_write_storage by exact Hkind.
    rewrite u32_id
      by (apply rmw_value_range; [apply peek_range | apply pow2_range; lia]).
    unfold v. rewrite rmw_value_testbit by (apply peek_range || lia).
    rewrite Z.pow2_bits_true by lia. reflexivity. }
  destruct (deassert_hardreset_shape cfg hw prm_mod shift st_shift s1
              Hcpu Hs Hst Hbit) as (c & m & n & Hrun & Hc & _).
  rewrite Hrun. eexists. eexists. split; [reflexivity | exact Hc].
Qed.

Lemma assert_then_deassert_witness :
  cpu_is_omap24xx omap3630 || cpu_is_omap34xx omap3630 = true /\
  0 <= 1 < 32 /\
  0 <= 9 < 32 /\
  kind_of iva2_prm (rstctrl_reg omap3630 OMAP3430_IVA2_MOD) = Storage /\
  exists c s',
    (omap2_prm_assert_hardreset omap3630 iva2_prm OMAP3430_IVA2_MOD 1;;
     omap2_prm_deassert_hardreset omap3630 iva2_prm OMAP3430_IVA2_MOD 1 9)
      iva2_running = Ret c s' /\
    (c = 0 \/ c = - EBUSY).
Proof.
  assert (H1 : cpu_is_omap24xx omap3630 || cpu_is_omap34xx omap3630 = true)
    by reflexivity.
  assert (H2 : 0 <= 1 < 32) by lia.
  assert (H3 : 0 <= 9 < 32) by lia.
  assert (H4 : kind_of iva2_prm (rstctrl_reg omap3630 OMAP3430_IVA2_MOD) = Storage)
    by reflexivity.
  split; [exact H1 |]. split; [exact H2 |]. split; [exact H3 |].
  split; [exact H4 |].
  exact (assert_then_deassert omap3630 iva2_prm OMAP3430_IVA2_MOD 1 9
           iva2_running H1 H2 H3 H4).
Defined.

Lemma peek_ext r1 r2 a : r1 a = r2 a -> peek r1 a = peek r2 a.
Proof. unfold peek. intros ->. reflexivity. Qed.

(** X10: a deassert changes RM_RSTCTRL in the bit of its line only, and no
    storage register other than RM_RSTCTRL and RM_RSTST at all. *)
Theorem deassert_hardreset_frame cfg hw prm_mod rst_shift st_shift s :
  cpu_is_omap24xx cfg || cpu_is_omap34xx cfg = true ->
  0 <= rst_shift < 32 ->
  0 <= st_shift < 32 ->
  kind_of hw (rstctrl_reg cfg prm_mod) = Storage ->
  rstctrl_reg cfg prm_mod <> rstst_reg cfg prm_mod ->
  Z.testbit (peek (regs s) (rstctrl_reg cfg prm_mod)) rst_shift = true ->
  exists c s',
    omap2_prm_deassert_hardreset cfg hw prm_mod rst_shift st_shift s =
      Ret c s' /\
    (forall i, 0 <= i -> i <> rst_shift ->
       Z.testbit (peek (regs s') (rstctrl_reg cfg prm_mod)) i =
       Z.testbit (peek (regs s) (rstctrl_reg cfg prm_mod)) i) /\
    (forall b, kind_of hw b = Storage ->
       b <> rstctrl_reg cfg prm_mod -> b <> rstst_reg cfg prm_mod ->
       regs s' b = regs s b).
Proof.
  intros Hcpu Hrst Hst Hkind Hne Hbit.
  destruct (deassert_hardreset_shape cfg hw prm_mod rst_shift st_shift s
              Hcpu Hrst Hst Hbit) as (c & m & n & Hrun & _ & _).
  rewrite Hrun. eexists. eexists. split; [reflexivity |]. cbn [regs].
  split.
  - intros i Hi Hir. unfold peek at 1. rewrite delays_storage by exact Hkind.
    fold (peek (released cfg hw prm_mod rst_shift st_shift (regs s))
            (rstctrl_reg cfg prm_mod)).
    rewrite released_rstctrl by exact Hkind. unfold release_value.
    rewrite Z.land_spec, not32_testbit by lia.
    rewrite Z.pow2_bits_false by lia. cbn [negb andb].
    rewrite (peek_ext (status_cleared cfg hw prm_mod st_shift (regs s)) (regs s))
      by (apply bus_write_other; exact Hne).
    destruct (Z.ltb_spec i 32) as [Hlt | Hge]; [apply andb_true_r |].
    rewrite peek_testbit_high by lia. reflexivity.
  - intros b Hkb Hbc Hbs. rewrite delays_storage by exact Hkb.
    unfold released. rewrite bus_write_other by exact Hbc.
    unfold status_cleared. apply bus_write_other. exact Hbs.
Qed.

Lemma deassert_hardreset_frame_witness :
  cpu_is_omap24xx omap3630 || cpu_is_omap34xx omap3630 = true /\
  0 <= 1 < 32 /\
  0 <= 9 < 32 /\
  kind_of iva2_prm (rstctrl_reg omap3630 OMAP3430_IVA2_MOD) = Storage /\
  rstctrl_reg omap3630 OMAP3430_IVA2_MOD <> rstst_reg omap3630 OMAP3430_IVA2_MOD /\
  Z.testbit (peek (regs iva2_in_reset) (rstctrl_reg omap3630 OMAP3430_IVA2_MOD))
    1 = true /\
  exists c s',
    omap2_prm_deassert_hardreset omap3630 iva2_prm OMAP3430_IVA2_MOD 1 9
      iva2_in_reset = Ret c s' /\
    (forall i, 0 <= i -> i <> 1 ->
       Z.testbit (peek (regs s') (rstctrl_reg omap3630 OMAP3430_IVA2_MOD)) i =
       Z.testbit (peek (regs iva2_in_reset)
                    (rstctrl_reg omap3630 OMAP3430_IVA2_MOD)) i) /\
    (forall b, kind_of iva2_prm b = Storage ->
       b <> rstctrl_reg omap3630 OMAP3430_IVA2_MOD ->
       b <> rstst_reg omap3630 OMAP3430_IVA2_MOD ->
       regs s' b = regs iva2_in_reset b).
Proof.
  assert (H1 : cpu_is_omap24xx omap3630 || cpu_is_omap34xx omap3630 = true)
    by reflexivity.
  assert (H2 : 0 <= 1 < 32) by lia.
  assert (H3 : 0 <= 9 < 32) by lia.
  assert (H4 : kind_of iva2_prm (rstctrl_reg omap3630 OMAP3430_IVA2_MOD) = Storage)
    by reflexivity.
  assert (H5 : rstctrl_reg omap3630 OMAP3430_IVA2_MOD <>
               rstst_reg omap3630 OMAP3430_IVA2_MOD)
    by (vm_compute; discriminate).
  assert (H6 : Z.testbit
                 (peek (regs iva2_in_reset)
                    (rstctrl_reg omap3630 OMAP3430_IVA2_MOD)) 1 = true)
    by reflexivity.
  split; [exact H1 |]. split; [exact H2 |]. split; [exact H3 |].
  split; [exact H4 |]. split; [exact H5 |]. split; [exact H6 |].
  exact (deassert_hardreset_frame omap3630 iva2_prm OMAP3430_IVA2_MOD 1 9
           iva2_in_reset H1 H2 H3 H4 H5 H6).
Defined.

Lemma delays_never_raised hw a n :
  0 <= n ->
  (forall r, Z.testbit (latch hw r a) n = false) ->
  forall k r,
    Z.testbit (peek r a) n = false ->
    Z.testbit (peek (delays hw k r) a) n = false.
Proof.
  intros Hn Hlatch. induction k as [| k IH]; intros r Hr; cbn [delays].
  - exact Hr.
  - apply IH. unfold peek in *. rewrite u32_testbit in * by lia.
    unfold bus_delay. destruct (kind_of hw a); [exact Hr |].
    rewrite Z.lor_spec, Hlatch, orb_false_r. exact Hr.
Qed.

(** X11: a stale status bit does not count as completion.  When RM_RSTST is
    write-one-to-clear and the hardware never raises the status bit, the
    call times out with -EBUSY even if the bit was set before the call. *)
Theorem deassert_hardreset_stale_status cfg hw prm_mod rst_shift st_shift s :
  cpu_is_omap24xx cfg || cpu_is_omap34xx cfg = true ->
  0 <= rst_shift < 32 ->
  0 <= st_shift < 32 ->
  kind_of hw (rstst_reg cfg prm_mod) = WriteOneToClear ->
  rstctrl_reg cfg prm_mod <> rstst_reg cfg prm_mod ->
  Z.testbit (peek (regs s) (rstctrl_reg cfg prm_mod)) rst_shift = true ->
  0 <= MAX_MODULE_HARDRESET_WAIT cfg ->
  (forall r, Z.testbit (latch hw r (rstst_reg cfg prm_mod)) st_shift = false) ->
  exists s',
    omap2_prm_deassert_hardreset cfg hw prm_mod rst_shift st_shift s =
      Ret (- EBUSY) s'.
Proof.
  intros Hcpu Hrst Hst Hkind Hne Hbit Hmax Hlatch.
  rewrite deassert_hardreset_run by assumption. cbn zeta.
  assert (Hnone : first_raised hw (Z.to_nat (MAX_MODULE_HARDRESET_WAIT cfg))
                    (rstst_reg cfg prm_mod) st_shift
                    (released cfg hw prm_mod rst_shift st_shift (regs s)) = None).
  { apply first_raised_None. intros j _.
    apply delays_never_raised; [lia | exact Hlatch |].
    unfold released.
    rewrite (peek_ext _ (status_cleared cfg hw prm_mod st_shift (regs s)))
      by (apply bus_write_other; congruence).
    unfold status_cleared. rewrite bus_write_w1c by exact Hkind.
    rewrite Z.land_spec, Z.lnot_spec, Z.pow2_bits_true by lia.
    apply andb_false_r. }
  rewrite Hnone. rewrite Z2Nat.id, Z.eqb_refl by exact Hmax.
  eexists. reflexivity.
Qed.

Lemma deassert_hardreset_stale_status_witness :
  cpu_is_omap24xx short_wait || cpu_is_omap34xx short_wait = true /\
  0 <= 0 < 32 /\
  0 <= 8 < 32 /\
  kind_of stuck_prm (rstst_reg short_wait OMAP3430_IVA2_MOD) = WriteOneToClear /\
  rstctrl_reg short_wait OMAP3430_IVA2_MOD <> rstst_reg short_wait OMAP3430_IVA2_MOD /\
  Z.testbit (peek (regs iva2_in_reset) (rstctrl_reg short_wait OMAP3430_IVA2_MOD))
    0 = true /\
  0 <= MAX_MODULE_HARDRESET_WAIT short_wait /\
  (forall r,
     Z.testbit (latch stuck_prm r (rstst_reg short_wait OMAP3430_IVA2_MOD)) 8 =
     false) /\
  Z.testbit (peek (regs iva2_in_reset) (rstst_reg short_wait OMAP3430_IVA2_MOD))
    8 = true /\
  exists s',
    omap2_prm_deassert_hardreset short_wait stuck_prm OMAP3430_IVA2_MOD 0 8
      iva2_in_reset = Ret (- EBUSY) s'.
Proof.
  assert (H1 : cpu_is_omap24xx short_wait || cpu_is_omap34xx short_wait = true)
    by reflexivity.
  assert (H2 : 0 <= 0 < 32) by lia.
  assert (H3 : 0 <= 8 < 32) by lia.
  assert (H4 : kind_of stuck_prm (rstst_reg short_wait OMAP3430_IVA2_MOD) =
               WriteOneToClear) by reflexivity.
  assert (H5 : rstctrl_reg short_wait OMAP3430_IVA2_MOD <>
               rstst_reg short_wait OMAP3430_IVA2_MOD)
    by (vm_compute; discriminate).
  assert (H6 : Z.testbit
                 (peek (regs iva2_in_reset)
                    (rstctrl_reg short_wait OMAP3430_IVA2_MOD)) 0 = true)
    by reflexivity.
  assert (H7 : 0 <= MAX_MODULE_HARDRESET_WAIT short_wait)
    by (cbn [MAX_MODULE_HARDRESET_WAIT short_wait]; lia).
  assert (H8 : forall r,
             Z.testbit
               (latch stuck_prm r (rstst_reg short_wait OMAP3430_IVA2_MOD)) 8 =
             false) by (intros r; reflexivity).
  split; [exact H1 |]. split; [exact H2 |]. split; [exact H3 |].
  split; [exact H4 |]. split; [exact H5 |]. split; [exact H6 |].
  split; [exact H7 |]. split; [exact H8 |].
  split; [reflexivity |].
  exact (deassert_hardreset_stale_status short_wait stuck_prm OMAP3430_IVA2_MOD
           0 8 iva2_in_reset H1 H2 H3 H4 H5 H6 H7 H8).
Defined.

Lemma first_raised_first hw budget a n r k :
  (k < budget)%nat ->
  Z.testbit (peek (delays hw k r) a) n = true ->
  (forall j, (j < k)%nat -> Z.testbit (peek (delays hw j r) a) n = false) ->
  first_raised hw budget a n r = Some k.
Proof.
  intros Hk Hset Hbefore.
  destruct (first_raised_seen hw budget a n r k Hk Hset) as (j & Hj & E).
  destruct (first_raised_Some hw budget a n r j E) as [Hjset _].
  destruct (Nat.eq_dec j k) as [-> | Hne]; [exact E |].
  rewrite (Hbefore j) in Hjset by lia. discriminate.
Qed.

(** X12: the call returns as soon as a poll reads the status bit as set: if
    that happens first at poll [k], counted from 0, it has made [k + 1] reads
    of RM_RSTST after its two writes, has waited [k] microseconds, and
    returns 0. *)
Theorem deassert_hardreset_first_poll cfg hw prm_mod rst_shift st_shift k s :
  cpu_is_omap24xx cfg || cpu_is_omap34xx cfg = true ->
  0 <= rst_shift < 32 ->
  0 <= st_shift < 32 ->
  Z.testbit (peek (regs s) (rstctrl_reg cfg prm_mod)) rst_shift = true ->
  (k < Z.to_nat (MAX_MODULE_HARDRESET_WAIT cfg))%nat ->
  Z.testbit
    (peek (delays hw k (released cfg hw prm_mod rst_shift st_shift (regs s)))
          (rstst_reg cfg prm_mod)) st_shift = true ->
  (forall j, (j < k)%nat ->
     Z.testbit
       (peek (delays hw j (released cfg hw prm_mod rst_shift st_shift (regs s)))
             (rstst_reg cfg prm_mod)) st_shift = false) ->
  omap2_prm_deassert_hardreset cfg hw prm_mod rst_shift st_shift s =
  Ret 0
    (Bus (delays hw k (released cfg hw prm_mod rst_shift st_shift (regs s)))
         ((trace s ++
           [Rd (rstctrl_reg cfg prm_mod);
            Rd (rstst_reg cfg prm_mod);
            Wr (rstst_reg cfg prm_mod) (2 ^ st_shift);
            Rd (rstctrl_reg cfg prm_mod);
            Wr (rstctrl_reg cfg prm_mod)
               (release_value cfg hw prm_mod rst_shift st_shift (regs s))]) ++
          repeat (Rd (rstst_reg cfg prm_mod)) (S k))).
Proof.
  intros Hcpu Hrst Hst Hbit Hk Hset Hbefore.
  rewrite deassert_hardreset_run by assumption. cbn zeta.
  rewrite (first_raised_first hw _ _ _ _ k Hk Hset Hbefore). reflexivity.
Qed.

Lemma deassert_hardreset_first_poll_witness :
  cpu_is_omap24xx omap3630 || cpu_is_omap34xx omap3630 = true /\
  0 <= 1 < 32 /\
  0 <= 9 < 32 /\
  Z.testbit (peek (regs iva2_in_reset) (rstctrl_reg omap3630 OMAP3430_IVA2_MOD))
    1 = true /\
  (1 < Z.to_nat (MAX_MODULE_HARDRESET_WAIT omap3630))%nat /\
  Z.testbit
    (peek (delays iva2_prm 1
             (released omap3630 iva2_prm OMAP3430_IVA2_MOD 1 9
                (regs iva2_in_reset)))
          (rstst_reg omap3630 OMAP3430_IVA2_MOD)) 9 = true /\
  (forall j, (j < 1)%nat ->
     Z.testbit
       (peek (delays iva2_prm j
                (released omap3630 iva2_prm OMAP3430_IVA2_MOD 1 9
                   (regs iva2_in_reset)))
             (rstst_reg omap3630 OMAP3430_IVA2_MOD)) 9 = false) /\
  omap2_prm_deassert_hardreset omap3630 iva2_prm OMAP3430_IVA2_MOD 1 9
    iva2_in_reset =
  Ret 0
    (Bus (delays iva2_prm 1
            (released omap3630 iva2_prm OMAP3430_IVA2_MOD 1 9
               (regs iva2_in_reset)))
         ((trace iva2_in_reset ++
           [Rd (rstctrl_reg omap3630 OMAP3430_IVA2_MOD);
            Rd (rstst_reg omap3630 OMAP3430_IVA2_MOD);
            Wr (rstst_reg omap3630 OMAP3430_IVA2_MOD) (2 ^ 9);
            Rd (rstctrl_reg omap3630 OMAP3430_IVA2_MOD);
            Wr (rstctrl_reg omap3630 OMAP3430_IVA2_MOD)
               (release_value omap3630 iva2_prm OMAP3430_IVA2_MOD 1 9
                  (regs iva2_in_reset))]) ++
          repeat (Rd (rstst_reg omap3630 OMAP3430_IVA2_MOD)) 2)).
Proof.
  assert (H1 : cpu_is_omap24xx omap3630 || cpu_is_omap34xx omap3630 = true)
    by reflexivity.
  assert (H2 : 0 <= 1 < 32) by lia.
  assert (H3 : 0 <= 9 < 32) by lia.
  assert (H4 : Z.testbit
                 (peek (regs iva2_in_reset)
                    (rstctrl_reg omap3630 OMAP3430_IVA2_MOD)) 1 = true)
    by reflexivity.
  assert (H5 : (1 < Z.to_nat (MAX_MODULE_HARDRESET_WAIT omap3630))%nat)
    by (cbn [MAX_MODULE_HARDRESET_WAIT omap3630]; lia).
  assert (H6 : Z.testbit
                 (peek (delays iva2_prm 1
                          (released omap3630 iva2_prm OMAP3430_IVA2_MOD 1 9
                             (regs iva2_in_reset)))
                       (rstst_reg omap3630 OMAP3430_IVA2_MOD)) 9 = true)
    by (vm_compute; reflexivity).
  assert (H7 : forall j, (j < 1)%nat ->
             Z.testbit
               (peek (delays iva2_prm j
                        (released omap3630 iva2_prm OMAP3430_IVA2_MOD 1 9
                           (regs iva2_in_reset)))
                     (rstst_reg omap3630 OMAP3430_IVA2_MOD)) 9 = false).
  { intros j Hj. assert (Hj0 : j = 0%nat) by lia. rewrite Hj0.
    vm_compute. reflexivity. }
  split; [exact H1 |]. split; [exact H2 |]. split; [exact H3 |].
  split; [exact H4 |]. split; [exact H5 |]. split; [exact H6 |].
  split; [exact H7 |].
  exact (deassert_hardreset_first_poll omap3630 iva2_prm OMAP3430_IVA2_MOD 1 9 1
           iva2_in_reset H1 H2 H3 H4 H5 H6 H7).
Defined.

(** ** More on the VP and ABB helpers *)

Lemma vp_check_txdone_run cfg irq_id irq s :
  0 <= irq_id ->
  omap3_prm_irqs cfg !! Z.to_nat irq_id = Some irq ->
  omap3_prm_vp_check_txdone cfg irq_id s =
  Ret (Z.land (peek (regs s) (irqstatus_reg cfg)) (vp_tranxdone_status irq))
      (Bus (regs s) (trace s ++ [Rd (irqstatus_reg cfg)])).
Proof.
  intros Hid Hirq.
  unfold omap3_prm_vp_check_txdone, mbind, io_bind, omap2_prm_read_mod_reg,
    __raw_readl.
  cbn beta iota. rewrite (irq_entry_run _ _ _ _ Hid Hirq). reflexivity.
Qed.

Lemma vp_clear_txdone_run cfg hw irq_id irq s :
  0 <= irq_id ->
  omap3_prm_irqs cfg !! Z.to_nat irq_id = Some irq ->
  omap3_prm_vp_clear_txdone cfg hw irq_id s =
  Ret tt (Bus (bus_write hw (irqstatus_reg cfg) (vp_tranxdone_status irq) (regs s))
              (trace s ++ [Wr (irqstatus_reg cfg) (vp_tranxdone_status irq)])).
Proof.
  intros Hid Hirq. unfold omap3_prm_vp_clear_txdone, mbind, io_bind.
  rewrite (irq_entry_run _ _ _ _ Hid Hirq). reflexivity.
Qed.

Lemma abb_clear_txdone_run cfg hw irq_id irq s :
  0 <= irq_id ->
  omap3_prm_irqs cfg !! Z.to_nat irq_id = Some irq ->
  omap36xx_prm_abb_clear_txdone cfg hw irq_id s =
  Ret tt (Bus (bus_write hw (irqstatus_reg cfg) (abb_tranxdone_status irq) (regs s))
              (trace s ++ [Wr (irqstatus_reg cfg) (abb_tranxdone_status irq)])).
Proof.
  intros Hid Hirq. unfold omap36xx_prm_abb_clear_txdone, mbind, io_bind.
  rewrite (irq_entry_run _ _ _ _ Hid Hirq). reflexivity.
Qed.

Lemma land_lnot_same p m : Z.land (Z.land p (Z.lnot m)) m = 0.
Proof.
  rewrite <- Z.land_assoc, (Z.land_comm (Z.lnot m)), Z.land_lnot_diag.
  apply Z.land_0_r.
Qed.

Lemma land_lnot_disjoint p m1 m2 :
  Z.land m1 m2 = 0 -> Z.land (Z.land p (Z.lnot m1)) m2 = Z.land p m2.
Proof.
  intros Hd. apply Z.bits_inj'. intros i Hi.
  rewrite !Z.land_spec, Z.lnot_spec by lia.
  assert (Hb : Z.testbit m1 i && Z.testbit m2 i = false)
    by (rewrite <- Z.land_spec, Hd; apply Z.bits_0).
  destruct (Z.testbit p i), (Z.testbit m1 i), (Z.testbit m2 i);
    try reflexivity; discriminate.
Qed.

(** X13: on a write-one-to-clear status register
    [omap3_prm_vp_clear_txdone] clears the bits of its rail's VP mask and no
    other bit; the check of a rail whose mask is disjoint from it returns
    the same value after the clear as before. *)
Theorem vp_clear_txdone_other_rail cfg hw id1 id2 irq1 irq2 s :
  0 <= id1 ->
  0 <= id2 ->
  omap3_prm_irqs cfg !! Z.to_nat id1 = Some irq1 ->
  omap3_prm_irqs cfg !! Z.to_nat id2 = Some irq2 ->
  kind_of hw (irqstatus_reg cfg) = WriteOneToClear ->
  Z.land (vp_tranxdone_status irq1) (vp_tranxdone_status irq2) = 0 ->
  (exists s1,
     omap3_prm_vp_clear_txdone cfg hw id1 s = Ret tt s1 /\
     forall i, 0 <= i ->
       Z.testbit (peek (regs s1) (irqstatus_reg cfg)) i =
       Z.testbit (peek (regs s) (irqstatus_reg cfg)) i &&
       negb (Z.testbit (vp_tranxdone_status irq1) i)) /\
  exists v s2 s3,
    omap3_prm_vp_check_txdone cfg id2 s = Ret v s2 /\
    (omap3_prm_vp_clear_txdone cfg hw id1;;
     omap3_prm_vp_check_txdone cfg id2) s = Ret v s3.
Proof.
  intros H1 H2 Hirq1 Hirq2 Hkind Hdisj. split.
  - rewrite (vp_clear_txdone_run _ _ _ _ _ H1 Hirq1).
    eexists. split; [reflexivity |]. cbn [regs]. intros i Hi.
    rewrite bus_write_w1c by exact Hkind.
    rewrite Z.land_spec, Z.lnot_spec by lia. reflexivity.
  - unfold mbind, io_bind.
    rewrite (vp_clear_txdone_run _ _ _ _ _ H1 Hirq1).
    rewrite !(vp_check_txdone_run _ _ _ _ H2 Hirq2). cbn [regs trace].
    rewrite bus_write_w1c by exact Hkind.
    rewrite (land_lnot_disjoint _ _ _ Hdisj).
    eexists. eexists. eexists. split; reflexivity.
Qed.

Lemma vp_clear_txdone_other_rail_witness :
  0 <= 0 /\
  0 <= 1 /\
  omap3_prm_irqs omap3630 !! Z.to_nat 0 =
    Some {| vp_tranxdone_status := 2 ^ 15; abb_tranxdone_status := 2 ^ 26 |} /\
  omap3_prm_irqs omap3630 !! Z.to_nat 1 =
    Some {| vp_tranxdone_status := 2 ^ 21; abb_tranxdone_status := 0 |} /\
  kind_of iva2_prm (irqstatus_reg omap3630) = WriteOneToClear /\
  Z.land (2 ^ 15) (2 ^ 21) = 0 /\
  (exists s1,
     omap3_prm_vp_clear_txdone omap3630 iva2_prm 0 iva2_in_reset = Ret tt s1 /\
     forall i, 0 <= i ->
       Z.testbit (peek (regs s1) (irqstatus_reg omap3630)) i =
       Z.testbit (peek (regs iva2_in_reset) (irqstatus_reg omap3630)) i &&
       negb (Z.testbit (2 ^ 15) i)) /\
  exists v s2 s3,
    omap3_prm_vp_check_txdone omap3630 1 iva2_in_reset = Ret v s2 /\
    (omap3_prm_vp_clear_txdone omap3630 iva2_prm 0;;
     omap3_prm_vp_check_txdone omap3630 1) iva2_in_reset = Ret v s3.
Proof.
  assert (H1 : 0 <= 0) by lia.
  assert (H2 : 0 <= 1) by lia.
  assert (H3 : omap3_prm_irqs omap3630 !! Z.to_nat 0 =
               Some {| vp_tranxdone_status := 2 ^ 15;
                       abb_tranxdone_status := 2 ^ 26 |}) by reflexivity.
  assert (H4 : omap3_prm_irqs omap3630 !! Z.to_nat 1 =
               Some {| vp_tranxdone_status := 2 ^ 21;
                       abb_tranxdone_status := 0 |}) by reflexivity.
  assert (H5 : kind_of iva2_prm (irqstatus_reg omap3630) = WriteOneToClear)
    by reflexivity.
  assert (H6 : Z.land (2 ^ 15) (2 ^ 21) = 0) by reflexivity.
  split; [exact H1 |]. split; [exact H2 |]. split; [exact H3 |].
  split; [exact H4 |]. split; [exact H5 |]. split; [exact H6 |].
  exact (vp_clear_txdone_other_rail omap3630 iva2_prm 0 1 _ _ iva2_in_reset
           H1 H2 H3 H4 H5 H6).
Defined.

(** X14: for a rail of the table [omap36xx_prm_abb_check_txdone] returns a
    non-zero value exactly when the rail's ABB mask and PRM_IRQSTATUS_MPU
    have a set bit in common; on a write-one-to-clear status register
    [omap36xx_prm_abb_clear_txdone] followed at once by the check
    returns 0. *)
Theorem abb_txdone_check_clear cfg hw irq_id irq s :
  0 <= irq_id ->
  omap3_prm_irqs cfg !! Z.to_nat irq_id = Some irq ->
  kind_of hw (irqstatus_reg cfg) = WriteOneToClear ->
  (exists v s',
     omap36xx_prm_abb_check_txdone cfg irq_id s = Ret v s' /\
     regs s' = regs s /\
     (v <> 0 <->
      exists i, 0 <= i /\
        Z.testbit (abb_tranxdone_status irq) i = true /\
        Z.testbit (peek (regs s) (irqstatus_reg cfg)) i = true)) /\
  exists s'',
    (omap36xx_prm_abb_clear_txdone cfg hw irq_id;;
     omap36xx_prm_abb_check_txdone cfg irq_id) s = Ret 0 s''.
Proof.
  intros Hid Hirq Hkind. split.
  - rewrite (abb_check_txdone_run _ _ _ _ Hid Hirq).
    eexists. eexists. split; [reflexivity |]. split; [reflexivity |].
    apply land_nonzero_bit, peek_range.
  - unfold mbind, io_bind.
    rewrite (abb_clear_txdone_run _ _ _ _ _ Hid Hirq).
    rewrite (abb_check_txdone_run _ _ _ _ Hid Hirq). cbn [regs trace].
    rewrite bus_write_w1c by exact Hkind. rewrite land_lnot_same.
    eexists. reflexivity.
Qed.

Lemma abb_txdone_check_clear_witness :
  0 <= 0 /\
  omap3_prm_irqs omap3630 !! Z.to_nat 0 =
    Some {| vp_tranxdone_status := 2 ^ 15; abb_tranxdone_status := 2 ^ 26 |} /\
  kind_of iva2_prm (irqstatus_reg omap3630) = WriteOneToClear /\
  (exists v s',
     omap36xx_prm_abb_check_txdone omap3630 0 iva2_in_reset = Ret v s' /\
     regs s' = regs iva2_in_reset /\
     (v <> 0 <->
      exists i, 0 <= i /\
        Z.testbit (2 ^ 26) i = true /\
        Z.testbit (peek (regs iva2_in_reset) (irqstatus_reg omap3630)) i = true)) /\
  exists s'',
    (omap36xx_prm_abb_clear_txdone omap3630 iva2_prm 0;;
     omap36xx_prm_abb_check_txdone omap3630 0) iva2_in_reset = Ret 0 s''.
Proof.
  assert (H1 : 0 <= 0) by lia.
  assert (H2 : omap3_prm_irqs omap3630 !! Z.to_nat 0 =
               Some {| vp_tranxdone_status := 2 ^ 15;
                       abb_tranxdone_status := 2 ^ 26 |}) by reflexivity.
  assert (H3 : kind_of iva2_prm (irqstatus_reg omap3630) = WriteOneToClear)
    by reflexivity.
  split; [exact H1 |]. split; [exact H2 |]. split; [exact H3 |].
  exact (abb_txdone_check_clear omap3630 iva2_prm 0 _ iva2_in_reset H1 H2 H3).
Defined.

(** X15: for a rail whose ABB mask is zero, [omap36xx_prm_abb_clear_txdone]
    still writes to PRM_IRQSTATUS_MPU, but the value it writes is 0, which
    on a write-one-to-clear register clears nothing: every register reads
    as before. *)
Theorem abb_clear_txdone_no_abb cfg hw irq_id irq s :
  0 <= irq_id ->
  omap3_prm_irqs cfg !! Z.to_nat irq_id = Some irq ->
  abb_tranxdone_status irq = 0 ->
  kind_of hw (irqstatus_reg cfg) = WriteOneToClear ->
  exists s',
    omap36xx_prm_abb_clear_txdone cfg hw irq_id s = Ret tt s' /\
    trace s' = trace s ++ [Wr (irqstatus_reg cfg) 0] /\
    forall b, peek (regs s') b = peek (regs s) b.
Proof.
  intros Hid Hirq Habb Hkind.
  rewrite (abb_clear_txdone_run _ _ _ _ _ Hid Hirq), Habb.
  eexists. split; [reflexivity |]. cbn [regs trace].
  split; [reflexivity |]. intros b.
  destruct (Z.eq_dec b (irqstatus_reg cfg)) as [-> | Hne].
  - rewrite bus_write_w1c by exact Hkind. apply Z.land_m1_r.
  - apply peek_ext, bus_write_other. exact Hne.
Qed.

Lemma abb_clear_txdone_no_abb_witness :
  0 <= 1 /\
  omap3_prm_irqs omap3630 !! Z.to_nat 1 =
    Some {| vp_tranxdone_status := 2 ^ 21; abb_tranxdone_status := 0 |} /\
  abb_tranxdone_status
    {| vp_tranxdone_status := 2 ^ 21; abb_tranxdone_status := 0 |} = 0 /\
  kind_of iva2_prm (irqstatus_reg omap3630) = WriteOneToClear /\
  exists s',
    omap36xx_prm_abb_clear_txdone omap3630 iva2_prm 1 iva2_in_reset = Ret tt s' /\
    trace s' = trace iva2_in_reset ++ [Wr (irqstatus_reg omap3630) 0] /\
    forall b, peek (regs s') b = peek (regs iva2_in_reset) b.
Proof.
  assert (H1 : 0 <= 1) by lia.
  assert (H2 : omap3_prm_irqs omap3630 !! Z.to_nat 1 =
               Some {| vp_tranxdone_status := 2 ^ 21;
                       abb_tranxdone_status := 0 |}) by reflexivity.
  assert (H3 : abb_tranxdone_status
                 {| vp_tranxdone_status := 2 ^ 21; abb_tranxdone_status := 0 |}
               = 0) by reflexivity.
  assert (H4 : kind_of iva2_prm (irqstatus_reg omap3630) = WriteOneToClear)
    by reflexivity.
  split; [exact H1 |]. split; [exact H2 |]. split; [exact H3 |].
  split; [exact H4 |].
  exact (abb_clear_txdone_no_abb omap3630 iva2_prm 1 _ iva2_in_reset
           H1 H2 H3 H4).
Defined.

Lemma irq_entry_beyond cfg irq_id s :
  2 <= irq_id -> irq_entry cfg irq_id s = Undefined.
Proof.
  intros Hid. unfold irq_entry.
  replace (irq_id <? 0) with false by (symmetry; apply Z.ltb_ge; lia).
  rewrite (proj2 (lookup_ge_None (omap3_prm_irqs cfg) (Z.to_nat irq_id)));
    [reflexivity |].
  rewrite irq_table_length. lia.
Qed.

(** X16: the table has two entries and none of the four transaction-done
    functions checks its index: for an [irq_id] of 2 or more each of them
    reads an entry beyond the table, which is undefined. *)
Theorem txdone_irq_id_unchecked cfg hw irq_id s :
  2 <= irq_id ->
  omap3_prm_vp_check_txdone cfg irq_id s = Undefined /\
  omap3_prm_vp_clear_txdone cfg hw irq_id s = Undefined /\
  omap36xx_prm_abb_check_txdone cfg irq_id s = Undefined /\
  omap36xx_prm_abb_clear_txdone cfg hw irq_id s = Undefined.
Proof.
  intros Hid.
  unfold omap3_prm_vp_check_txdone, omap3_prm_vp_clear_txdone,
    omap36xx_prm_abb_check_txdone, omap36xx_prm_abb_clear_txdone, mbind,
    io_bind, omap2_prm_read_mod_reg, __raw_readl.
  cbn beta iota.
  rewrite !(fun s0 => irq_entry_beyond cfg irq_id s0 Hid). repeat split.
Qed.

Lemma txdone_irq_id_unchecked_witness :
  2 <= 2 /\
  omap3_prm_vp_check_txdone omap3630 2 iva2_in_reset = Undefined /\
  omap3_prm_vp_clear_txdone omap3630 iva2_prm 2 iva2_in_reset = Undefined /\
  omap36xx_prm_abb_check_txdone omap3630 2 iva2_in_reset = Undefined /\
  omap36xx_prm_abb_clear_txdone omap3630 iva2_prm 2 iva2_in_reset = Undefined.
Proof.
  assert (H1 : 2 <= 2) by lia.
  split; [exact H1 |].
  exact (txdone_irq_id_unchecked omap3630 iva2_prm 2 iva2_in_reset H1).
Defined.

(** ** The VC/VP accessors *)

Lemma u16_id x : 0 <= x < 2 ^ 16 -> u16 x = x.
Proof.
  intros Hx. unfold u16. rewrite Z.land_ones by lia. apply Z.mod_small. lia.
Qed.

(** X17: the three VC/VP accessors reach the same register of the GR module:
    on a storage register a value written by [omap3_prm_vcvp_write] is the
    value [omap3_prm_vcvp_read] returns next, and so is the value
    [omap3_prm_vcvp_rmw] returns. *)
Theorem vcvp_accessors_agree cfg hw mask bits val offset s :
  0 <= offset < 2 ^ 8 ->
  0 <= val < 2 ^ 32 ->
  0 <= bits < 2 ^ 32 ->
  kind_of hw (prm_base cfg + OMAP3430_GR_MOD cfg + offset) = Storage ->
  (exists s',
     (omap3_prm_vcvp_write cfg hw val offset;;
      omap3_prm_vcvp_read cfg offset) s = Ret val s') /\
  exists v s1 s2,
    omap3_prm_vcvp_rmw cfg hw mask bits offset s = Ret v s1 /\
    (omap3_prm_vcvp_rmw cfg hw mask bits offset;;
     omap3_prm_vcvp_read cfg offset) s = Ret v s2.
Proof.
  intros Hoff Hval Hbits Hkind. split.
  - unfold mbind, io_bind, omap3_prm_vcvp_write, omap3_prm_vcvp_read,
      omap2_prm_write_mod_reg, omap2_prm_read_mod_reg, __raw_writel,
      __raw_readl. cbn [regs trace].
    rewrite bus_write_storage, u32_id by assumption.
    eexists. reflexivity.
  - unfold mbind, io_bind, omap3_prm_vcvp_rmw, omap3_prm_vcvp_read.
    rewrite rmw_run. cbn zeta.
    unfold omap2_prm_read_mod_reg, __raw_readl. cbn [regs trace].
    unfold prm_reg. rewrite u16_id by lia.
    rewrite bus_write_storage by exact Hkind.
    rewrite u32_id
      by (apply rmw_value_range; [apply peek_range | exact Hbits]).
    eexists. eexists. eexists. split; reflexivity.
Qed.

Lemma vcvp_accessors_agree_witness :
  0 <= 0x20 < 2 ^ 8 /\
  0 <= 0x12345678 < 2 ^ 32 /\
  0 <= 0x30 < 2 ^ 32 /\
  kind_of iva2_prm (prm_base omap3630 + OMAP3430_GR_MOD omap3630 + 0x20) =
    Storage /\
  (exists s',
     (omap3_prm_vcvp_write omap3630 iva2_prm 0x12345678 0x20;;
      omap3_prm_vcvp_read omap3630 0x20) iva2_in_reset = Ret 0x12345678 s') /\
  exists v s1 s2,
    omap3_prm_vcvp_rmw omap3630 iva2_prm 0xf0 0x30 0x20 iva2_in_reset =
      Ret v s1 /\
    (omap3_prm_vcvp_rmw omap3630 iva2_prm 0xf0 0x30 0x20;;
     omap3_prm_vcvp_read omap3630 0x20) iva2_in_reset = Ret v s2.
Proof.
  assert (H1 : 0 <= 0x20 < 2 ^ 8) by lia.
  assert (H2 : 0 <= 0x12345678 < 2 ^ 32) by lia.
  assert (H3 : 0 <= 0x30 < 2 ^ 32) by lia.
  assert (H4 : kind_of iva2_prm
                 (prm_base omap3630 + OMAP3430_GR_MOD omap3630 + 0x20) = Storage)
    by reflexivity.
  split; [exact H1 |]. split; [exact H2 |]. split; [exact H3 |].
  split; [exact H4 |].
  exact (vcvp_accessors_agree omap3630 iva2_prm 0xf0 0x30 0x12345678 0x20
           iva2_in_reset H1 H2 H3 H4).
Defined.

(** ** More on the router *)

Lemma cm_router_encoded_run cfg hw sel off idx val s :
  0 <= sel < 4 ->
  0 <= off < 2 ^ 13 ->
  cm_read_mod_reg cfg (Z.lor (Z.shiftl sel BASE_ID_SHIFT) off) idx s =
    match router_base cfg sel with
    | Some base => __omap_prcm_read base off idx s
    | None => Ret 0 s
    end /\
  cm_write_mod_reg cfg hw val (Z.lor (Z.shiftl sel BASE_ID_SHIFT) off) idx s =
    match router_base cfg sel with
    | Some base => __omap_prcm_write hw val base off idx s
    | None => Ret tt s
    end.
Proof.
  intros Hsel Hoff. unfold cm_read_mod_reg, cm_write_mod_reg, router_base.
  cbn zeta. rewrite decode_selector, decode_module by lia.
  destruct (sel =? PRM_BASE), (sel =? CM2_BASE), (sel =? DEFAULT_BASE);
    split; reflexivity.
Qed.

(** X18: through the router, a value written to a storage register of a
    mapped region is the value read back from the same encoded module and
    register. *)
Theorem cm_router_write_read cfg hw sel base off idx val s :
  0 <= sel < 4 ->
  0 <= off < 2 ^ 13 ->
  router_base cfg sel = Some base ->
  base <> 0 ->
  kind_of hw (base + off + idx) = Storage ->
  0 <= val < 2 ^ 32 ->
  exists s',
    (cm_write_mod_reg cfg hw val (Z.lor (Z.shiftl sel BASE_ID_SHIFT) off) idx;;
     cm_read_mod_reg cfg (Z.lor (Z.shiftl sel BASE_ID_SHIFT) off) idx) s =
      Ret val s' /\
    trace s' = trace s ++ [Wr (base + off + idx) val; Rd (base + off + idx)].
Proof.
  intros Hsel Hoff Hbase Hnz Hkind Hval. unfold mbind, io_bind.
  destruct (cm_router_encoded_run cfg hw sel off idx val s Hsel Hoff)
    as [_ Hw].
  rewrite Hw, Hbase. unfold __omap_prcm_write.
  destruct (Z.eqb_spec base 0) as [| _]; [contradiction |].
  unfold __raw_writel.
  match goal with
  | |- context [cm_read_mod_reg cfg ?m idx ?s1] =>
      destruct (cm_router_encoded_run cfg hw sel off idx val s1 Hsel Hoff)
        as [Hr _]; rewrite Hr
  end.
  rewrite Hbase. unfold __omap_prcm_read.
  destruct (Z.eqb_spec base 0) as [| _]; [contradiction |].
  unfold __raw_readl. cbn [regs trace].
  rewrite bus_write_storage, u32_id by assumption.
  eexists. split; [reflexivity |]. cbn [trace].
  rewrite <- app_assoc. reflexivity.
Qed.

Lemma cm_router_write_read_witness :
  0 <= PRM_BASE < 4 /\
  0 <= 0x200 < 2 ^ 13 /\
  router_base omap3630 PRM_BASE = Some (prm_base omap3630) /\
  prm_base omap3630 <> 0 /\
  kind_of iva2_prm (prm_base omap3630 + 0x200 + 0x50) = Storage /\
  0 <= 0x4 < 2 ^ 32 /\
  exists s',
    (cm_write_mod_reg omap3630 iva2_prm 0x4
       (Z.lor (Z.shiftl PRM_BASE BASE_ID_SHIFT) 0x200) 0x50;;
     cm_read_mod_reg omap3630
       (Z.lor (Z.shiftl PRM_BASE BASE_ID_SHIFT) 0x200) 0x50) iva2_in_reset =
      Ret 0x4 s' /\
    trace s' =
      trace iva2_in_reset ++
      [Wr (prm_base omap3630 + 0x200 + 0x50) 0x4;
       Rd (prm_base omap3630 + 0x200 + 0x50)].
Proof.
  assert (H1 : 0 <= PRM_BASE < 4) by (unfold PRM_BASE; lia).
  assert (H2 : 0 <= 0x200 < 2 ^ 13) by lia.
  assert (H3 : router_base omap3630 PRM_BASE = Some (prm_base omap3630))
    by reflexivity.
  assert (H4 : prm_base omap3630 <> 0) by (vm_compute; discriminate).
  assert (H5 : kind_of iva2_prm (prm_base omap3630 + 0x200 + 0x50) = Storage)
    by reflexivity.
  assert (H6 : 0 <= 0x4 < 2 ^ 32) by lia.
  split; [exact H1 |]. split; [exact H2 |]. split; [exact H3 |].
  split; [exact H4 |]. split; [exact H5 |]. split; [exact H6 |].
  exact (cm_router_write_read omap3630 iva2_prm PRM_BASE (prm_base omap3630)
           0x200 0x50 0x4 iva2_in_reset H1 H2 H3 H4 H5 H6).
Defined.



(** X20: with the PRM selector the router is the PRM accessor: when the PRM
    region is mapped, [cm_read_mod_reg] and [cm_write_mod_reg] on an encoded
    module do what [omap2_prm_read_mod_reg] and [omap2_prm_write_mod_reg] do
    on its module offset. *)
Theorem cm_router_prm_alias cfg hw off idx val s :
  0 <= off < 2 ^ 13 ->
  prm_base cfg <> 0 ->
  cm_read_mod_reg cfg (Z.lor (Z.shiftl PRM_BASE BASE_ID_SHIFT) off) idx s =
    omap2_prm_read_mod_reg cfg off idx s /\
  cm_write_mod_reg cfg hw val (Z.lor (Z.shiftl PRM_BASE BASE_ID_SHIFT) off) idx s =
    omap2_prm_write_mod_reg cfg hw val off idx s.
Proof.
  intros Hoff Hnz.
  destruct (cm_router_encoded_run cfg hw PRM_BASE off idx val s
              ltac:(unfold PRM_BASE; lia) Hoff) as [Hr Hw].
  rewrite Hr, Hw.
  change (router_base cfg PRM_BASE) with (Some (prm_base cfg)).
  unfold __omap_prcm_read, __omap_prcm_write, omap2_prm_read_mod_reg,
    omap2_prm_write_mod_reg.
  destruct (Z.eqb_spec (prm_base cfg) 0) as [| _]; [contradiction |].
  split; reflexivity.
Qed.

Lemma cm_router_prm_alias_witness :
  0 <= 0x200 < 2 ^ 13 /\
  prm_base omap3630 <> 0 /\
  cm_read_mod_reg omap3630 (Z.lor (Z.shiftl PRM_BASE BASE_ID_SHIFT) 0x200) 0x50
    iva2_in_reset =
    omap2_prm_read_mod_reg omap3630 0x200 0x50 iva2_in_reset /\
  cm_write_mod_reg omap3630 iva2_prm 0x4
    (Z.lor (Z.shiftl PRM_BASE BASE_ID_SHIFT) 0x200) 0x50 iva2_in_reset =
    omap2_prm_write_mod_reg omap3630 iva2_prm 0x4 0x200 0x50 iva2_in_reset.
Proof.
  assert (H1 : 0 <= 0x200 < 2 ^ 13) by lia.
  assert (H2 : prm_base omap3630 <> 0) by (vm_compute; discriminate).
  split; [exact H1 |]. split; [exact H2 |].
  exact (cm_router_prm_alias omap3630 iva2_prm 0x200 0x50 0x4 iva2_in_reset
           H1 H2).
Defined.

(** ** Register fields *)

Lemma lowest_set_bit_unique p n :
  0 <= n ->
  Z.testbit (Zpos p) n = true ->
  (forall j, 0 <= j < n -> Z.testbit (Zpos p) j = false) ->
  lowest_set_bit p = n.
Proof.
  intros Hn Hset Hbefore.
  pose proof (lowest_set_bit_nonneg p) as Hl.
  pose proof (lowest_set_bit_set p) as Hls.
  destruct (Z.lt_trichotomy (lowest_set_bit p) n) as [Hlt | [Heq | Hgt]].
  - rewrite Hbefore in Hls by lia. discriminate.
  - exact Heq.
  - rewrite (lowest_set_bit_least p n) in Hset by lia. discriminate.
Qed.

Lemma field_mask_testbit w sh i :
  0 <= w -> 0 <= sh -> 0 <= i ->
  Z.testbit (field_mask w sh) i = (sh <=? i) && (i - sh <? w).
Proof.
  intros Hw Hsh Hi. unfold field_mask.
  destruct (Z.leb_spec sh i) as [Hle | Hlt].
  - rewrite Z.shiftl_spec by lia. rewrite Z.testbit_ones_nonneg by lia.
    reflexivity.
  - rewrite Z.shiftl_spec_low by lia. reflexivity.
Qed.

Lemma ffs_field w sh s :
  0 < w -> 0 <= sh -> __ffs (field_mask w sh) s = Ret sh s.
Proof.
  intros Hw Hsh.
  assert (Hset : Z.testbit (field_mask w sh) sh = true).
  { rewrite field_mask_testbit by lia. rewrite Z.leb_refl, Z.sub_diag.
    cbn [andb]. apply Z.ltb_lt. exact Hw. }
  assert (Hbefore : forall j, 0 <= j < sh -> Z.testbit (field_mask w sh) j = false).
  { intros j Hj. rewrite field_mask_testbit by lia.
    replace (sh <=? j) with false by (symmetry; apply Z.leb_gt; lia).
    reflexivity. }
  destruct (field_mask w sh) as [| p | p] eqn:E.
  - rewrite Z.bits_0 in Hset. discriminate.
  - cbn [__ffs]. unfold mret, io_ret.
    rewrite (lowest_set_bit_unique p sh Hsh Hset Hbefore). reflexivity.
  - assert (Hnn : 0 <= field_mask w sh).
    { unfold field_mask. apply Z.shiftl_nonneg.
      rewrite Z.ones_equiv. pose proof (Z.pow_pos_nonneg 2 w). lia. }
    lia.
Qed.

Lemma extract_field v w sh :
  0 <= sh ->
  Z.shiftr (Z.land v (field_mask w sh)) sh = Z.land (Z.shiftr v sh) (Z.ones w).
Proof.
  intros Hsh. unfold field_mask.
  rewrite Z.shiftr_land, Z.shiftr_shiftl_l, Z.sub_diag, Z.shiftl_0_r by lia.
  reflexivity.
Qed.

(** X21: for the mask of a contiguous field of [w] bits starting at bit
    [sh], [omap2_prm_read_mod_bits_shift] returns the field as a number
    below [2 ^ w]: the register shifted down by [sh], modulo [2 ^ w].  It
    reads the register once and changes nothing. *)
Theorem read_mod_bits_shift_contiguous cfg domain idx w sh s :
  0 < w ->
  0 <= sh ->
  exists v s',
    omap2_prm_read_mod_bits_shift cfg domain idx (field_mask w sh) s =
      Ret v s' /\
    v = Z.shiftr (peek (regs s) (prm_reg cfg domain idx)) sh mod 2 ^ w /\
    0 <= v < 2 ^ w /\
    regs s' = regs s /\
    trace s' = trace s ++ [Rd (prm_reg cfg domain idx)].
Proof.
  intros Hw Hsh.
  unfold omap2_prm_read_mod_bits_shift, omap2_prm_read_mod_reg, __raw_readl,
    mbind, io_bind.
  rewrite ffs_field by lia. unfold mret, io_ret.
  fold (prm_reg cfg domain idx). rewrite extract_field by lia.
  rewrite Z.land_ones by lia.
  eexists. eexists. split; [reflexivity |]. split; [reflexivity |].
  split; [| split; reflexivity].
  apply Z.mod_pos_bound. apply Z.pow_pos_nonneg; lia.
Qed.

Lemma read_mod_bits_shift_contiguous_witness :
  0 < 3 /\
  0 <= 8 /\
  exists v s',
    omap2_prm_read_mod_bits_shift omap3630 OMAP3430_IVA2_MOD 0x58
      (field_mask 3 8) iva2_running = Ret v s' /\
    v = Z.shiftr (peek (regs iva2_running)
                    (prm_reg omap3630 OMAP3430_IVA2_MOD 0x58)) 8 mod 2 ^ 3 /\
    0 <= v < 2 ^ 3 /\
    regs s' = regs iva2_running /\
    trace s' =
      trace iva2_running ++ [Rd (prm_reg omap3630 OMAP3430_IVA2_MOD 0x58)].
Proof.
  assert (H1 : 0 < 3) by lia.
  assert (H2 : 0 <= 8) by lia.
  split; [exact H1 |]. split; [exact H2 |].
  exact (read_mod_bits_shift_contiguous omap3630 OMAP3430_IVA2_MOD 0x58 3 8
           iva2_running H1 H2).
Defined.

Lemma small_testbit_high val w i :
  0 <= w -> 0 <= val < 2 ^ w -> w <= i -> Z.testbit val i = false.
Proof.
  intros Hw Hval Hi.
  rewrite <- (Z.mod_small val (2 ^ w)) by lia.
  rewrite <- Z.land_ones by lia.
  rewrite Z.land_spec, Z.testbit_ones_nonneg by lia.
  replace (i <? w) with false by (symmetry; apply Z.ltb_ge; lia).
  apply andb_false_r.
Qed.

(** X22: a field written with the read-modify-write primitive is the field
    read back: after [omap2_prm_rmw_mod_reg_bits] with the mask of a field
    and a value shifted to the field's position, on a storage register,
    [omap2_prm_read_mod_bits_shift] with the same mask returns the value. *)
Theorem field_write_read cfg hw module idx w sh val s :
  0 < w ->
  0 <= sh ->
  w + sh <= 32 ->
  0 <= val < 2 ^ w ->
  kind_of hw (prm_reg cfg module idx) = Storage ->
  exists s',
    (omap2_prm_rmw_mod_reg_bits cfg hw (field_mask w sh) (Z.shiftl val sh)
       module idx;;
     omap2_prm_read_mod_bits_shift cfg module idx (field_mask w sh)) s =
      Ret val s'.
Proof.
  intros Hw Hsh Hfit Hval Hkind. unfold mbind, io_bind.
  rewrite rmw_run. cbn beta iota zeta.
  set (a := prm_reg cfg module idx) in *.
  set (v := Z.lor (Z.land (peek (regs s) a) (not32 (field_mask w sh)))
                  (Z.shiftl val sh)).
  assert (Hbits : 0 <= Z.shiftl val sh < 2 ^ 32).
  { rewrite Z.shiftl_mul_pow2 by lia. split.
    - apply Z.mul_nonneg_nonneg; [lia | apply Z.pow_nonneg; lia].
    - apply Z.lt_le_trans with (2 ^ w * 2 ^ sh).
      + apply Z.mul_lt_mono_pos_r; [apply Z.pow_pos_nonneg; lia | lia].
      + rewrite <- Z.pow_add_r by lia. apply Z.pow_le_mono_r; lia. }
  assert (Hv : 0 <= v < 2 ^ 32)
    by (apply rmw_value_range; [apply peek_range | exact Hbits]).
  unfold omap2_prm_read_mod_bits_shift, omap2_prm_read_mod_reg, __raw_readl,
    mbind, io_bind. cbn [regs trace].
  rewrite ffs_field by lia. unfold mret, io_ret.
  fold (prm_reg cfg module idx). fold a.
  rewrite bus_write_storage, u32_id by assumption.
  rewrite extract_field by lia.
  assert (Hfield : Z.land (Z.shiftr v sh) (Z.ones w) = val).
  { apply Z.bits_inj'. intros i Hi.
    rewrite Z.land_spec, Z.shiftr_spec, Z.testbit_ones_nonneg by lia.
    unfold v. rewrite rmw_value_testbit by (apply peek_range || lia).
    rewrite Z.shiftl_spec by lia. rewrite field_mask_testbit by lia.
    replace (i + sh - sh) with i by lia.
    replace (sh <=? i + sh) with true by (symmetry; apply Z.leb_le; lia).
    destruct (Z.ltb_spec i w) as [Hlt | Hge].
    - cbn [andb negb]. rewrite andb_false_r, orb_false_r, andb_true_r.
      reflexivity.
    - rewrite andb_false_r. symmetry.
      apply (small_testbit_high val w i); lia. }
  rewrite Hfield. eexists. reflexivity.
Qed.

Lemma field_write_read_witness :
  0 < 3 /\
  0 <= 4 /\
  3 + 4 <= 32 /\
  0 <= 5 < 2 ^ 3 /\
  kind_of iva2_prm (prm_reg omap3630 OMAP3430_IVA2_MOD 0x50) = Storage /\
  exists s',
    (omap2_prm_rmw_mod_reg_bits omap3630 iva2_prm (field_mask 3 4)
       (Z.shiftl 5 4) OMAP3430_IVA2_MOD 0x50;;
     omap2_prm_read_mod_bits_shift omap3630 OMAP3430_IVA2_MOD 0x50
       (field_mask 3 4)) iva2_in_reset = Ret 5 s'.
Proof.
  assert (H1 : 0 < 3) by lia.
  assert (H2 : 0 <= 4) by lia.
  assert (H3 : 3 + 4 <= 32) by lia.
  assert (H4 : 0 <= 5 < 2 ^ 3) by lia.
  assert (H5 : kind_of iva2_prm (prm_reg omap3630 OMAP3430_IVA2_MOD 0x50) = Storage)
    by reflexivity.
  split; [exact H1 |]. split; [exact H2 |]. split; [exact H3 |].
  split; [exact H4 |]. split; [exact H5 |].
  exact (field_write_read omap3630 iva2_prm OMAP3430_IVA2_MOD 0x50 3 4 5
           iva2_in_reset H1 H2 H3 H4 H5).
Defined.
